(** * edit_photo_exif: extraction of photo records from a Facebook export
      and rewriting of the EXIF "date taken" field

    A shallow embedding of [edit_photo_exif.py].  JSON documents are the
    values [json.load] produces, Python exceptions are the left summand of
    a sum type, dictionaries are finite maps with string keys. *)

From Stdlib Require Import ZArith String Ascii Lia DecimalString.
From stdpp Require Import gmap strings list fin_maps sorting.

Set Warnings "-register-all".
Open Scope Z_scope.

(** ** Python values and exceptions *)

(** What [json.load] returns: [None], [bool], [int], [float], [str],
    [list] and [dict] with [str] keys.  A [float] is kept as the pair
    mantissa, binary exponent; no function below computes with one. *)
Inductive pyval : Type :=
| PyNone
| PyBool (b : bool)
| PyInt (n : Z)
| PyFloat (mantissa exponent : Z)
| PyStr (s : string)
| PyList (items : list pyval)
| PyDict (entries : gmap string pyval).

(** The exception classes the program can raise.  [KeyError] carries the
    key that was looked up; [Raised] stands for an exception class of a
    library (piexif, the operating system) that is named by its text. *)
Inductive pyerr : Type :=
| KeyError (key : pyval)
| IndexError
| TypeError
| AttributeError
| ValueError
| FileNotFoundError
| Raised (cls : string).

#[global] Instance pyerr_bind : MBind (sum pyerr) :=
  fun A B f m => match m with inl e => inl e | inr a => f a end.
#[global] Instance pyerr_ret : MRet (sum pyerr) := fun A a => inr a.

(** [raise e] *)
Definition raise {A} (e : pyerr) : pyerr + A := inl e.

Definition empty_dict : pyval := PyDict ∅.

(** ** Strings *)

(** A Rocq string holds the UTF-8 bytes of a Python [str]; a Python
    character is a lead byte with the continuation bytes (10xxxxxx) that
    follow it. *)
Definition is_continuation (c : ascii) : bool :=
  let n := N_of_ascii c in ((128 <=? n) && (n <? 192))%N.

Definition starts_with_continuation (s : string) : bool :=
  match s with
  | EmptyString => false
  | String c _ => is_continuation c
  end.

(** The characters of a [str], each as a one-character [str]. *)
Fixpoint py_chars (s : string) : list string :=
  match s with
  | EmptyString => []
  | String c rest =>
      match py_chars rest with
      | [] => [String c EmptyString]
      | g :: gs =>
          if starts_with_continuation rest
          then String c g :: gs
          else String c EmptyString :: g :: gs
      end
  end.

(** [s.endswith(suffix)]: the last [len(suffix)] bytes of [s] are
    [suffix]. *)
Definition endswith (s suffix : string) : bool :=
  (String.length suffix <=? String.length s)%nat
  && String.eqb
       (substring (String.length s - String.length suffix)
                  (String.length suffix) s)
       suffix.

(** [needle in haystack] for two [str]. *)
Definition str_contains (needle haystack : string) : bool :=
  match String.index 0 needle haystack with
  | Some _ => true
  | None => false
  end.

(** ** Operations on Python values *)

(** [v[key]] with a [str] key: only a [dict] can be subscripted by a
    string; a [list] or [str] wants an integer and every other value is
    not subscriptable, both are [TypeError]. *)
Definition py_getitem (v : pyval) (key : string) : pyerr + pyval :=
  match v with
  | PyDict d =>
      match d !! key with
      | Some x => inr x
      | None => raise (KeyError (PyStr key))
      end
  | _ => raise TypeError
  end.

(** [v[0]]: first element of a [list], first character of a [str]; a
    [dict] loaded from JSON has only [str] keys, so [0] is a missing
    key. *)
Definition py_getitem0 (v : pyval) : pyerr + pyval :=
  match v with
  | PyList (x :: _) => inr x
  | PyList [] => raise IndexError
  | PyStr s =>
      match py_chars s with
      | c :: _ => inr (PyStr c)
      | [] => raise IndexError
      end
  | PyDict _ => raise (KeyError (PyInt 0))
  | _ => raise TypeError
  end.

(** [v.get(key, fallback)]: only [dict] has the method. *)
Definition py_get (v : pyval) (key : string) (fallback : pyval)
  : pyerr + pyval :=
  match v with
  | PyDict d => inr (default fallback (d !! key))
  | _ => raise AttributeError
  end.

Definition is_str (key : string) (v : pyval) : bool :=
  match v with
  | PyStr s => String.eqb s key
  | _ => false
  end.

(** [key in v] for a [str] [key]: key of a [dict], element of a [list],
    substring of a [str]; other values are not containers. *)
Definition py_contains (key : string) (v : pyval) : pyerr + bool :=
  match v with
  | PyDict d => inr (bool_decide (is_Some (d !! key)))
  | PyList l => inr (existsb (is_str key) l)
  | PyStr s => inr (str_contains key s)
  | _ => raise TypeError
  end.

(** The elements [for x in v] visits: the items of a [list], the
    characters of a [str], the keys of a [dict] (in the enumeration order
    of the map; nothing below depends on that order). *)
Definition py_iter (v : pyval) : pyerr + list pyval :=
  match v with
  | PyList l => inr l
  | PyStr s => inr (PyStr <$> py_chars s)
  | PyDict d => inr (PyStr <$> (map_to_list d).*1)
  | _ => raise TypeError
  end.

(** ** Photo *)

(** The dataclass [Photo].  Its annotations ([str], [int]) are not
    enforced: the fields hold whatever the JSON held. *)
Record Photo : Type := mkPhoto { uri : pyval; timestamp : pyval }.

(** [Photo.from_json_structure] *)
Definition from_json_structure (structure : pyval) : pyerr + Photo :=
  uri ← py_getitem structure "uri";
  media_metadata ← py_get structure "media_metadata" empty_dict;
  photo_metadata ← py_get media_metadata "photo_metadata" empty_dict;
  exif_data ← py_get photo_metadata "exif_data" (PyList [empty_dict]);
  block ← py_getitem0 exif_data;
  timestamp ← py_get block "taken_timestamp" PyNone;
  match timestamp with
  | PyNone =>
      timestamp ← py_getitem structure "creation_timestamp";
      mret (mkPhoto uri timestamp)
  | _ => mret (mkPhoto uri timestamp)
  end.

(** [extract_photos_from_list] *)
Fixpoint extract_photos_from_list (photos_data : list pyval)
  : pyerr + list Photo :=
  match photos_data with
  | [] => mret []
  | photo :: rest =>
      p ← from_json_structure photo;
      photos ← extract_photos_from_list rest;
      mret (p :: photos)
  end.

(** ** Posts *)

(** Line 117 of [extract_photos_from_posts]:
    [photo.get("attachments", [{}])[0].get("data", [{}])]. *)
Definition data_section (post : pyval) : pyerr + pyval :=
  attachments ← py_get post "attachments" (PyList [empty_dict]);
  first_attachment ← py_getitem0 attachments;
  py_get first_attachment "data" (PyList [empty_dict]).

(** The inner loop [for entry in data_section], appending to [photos]. *)
Fixpoint extract_entries (entries : list pyval) (photos : list Photo)
  : pyerr + list Photo :=
  match entries with
  | [] => mret photos
  | entry :: rest =>
      has_media ← py_contains "media" entry;
      if (has_media : bool) then
        media ← py_getitem entry "media";
        p ← from_json_structure media;
        extract_entries rest (photos ++ [p])
      else extract_entries rest photos
  end.

(** The outer loop [for photo in data]. *)
Fixpoint extract_posts_loop (data : list pyval) (photos : list Photo)
  : pyerr + list Photo :=
  match data with
  | [] => mret photos
  | post :: rest =>
      section ← data_section post;
      entries ← py_iter section;
      photos ← extract_entries entries photos;
      extract_posts_loop rest photos
  end.

(** [extract_photos_from_posts] *)
Definition extract_photos_from_posts (data : list pyval)
  : pyerr + list Photo :=
  extract_posts_loop data [].

(** ** Messages *)

Fixpoint extend_photos (photos_data : list pyval) (photos : list Photo)
  : pyerr + list Photo :=
  match photos_data with
  | [] => mret photos
  | photo :: rest =>
      p ← from_json_structure photo;
      extend_photos rest (photos ++ [p])
  end.

Fixpoint extract_messages_loop (messages : list pyval) (photos : list Photo)
  : pyerr + list Photo :=
  match messages with
  | [] => mret photos
  | message :: rest =>
      has_photos ← py_contains "photos" message;
      if (has_photos : bool) then
        attached ← py_getitem message "photos";
        photos_data ← py_iter attached;
        photos ← extend_photos photos_data photos;
        extract_messages_loop rest photos
      else extract_messages_loop rest photos
  end.

(** [extract_photos_from_messages] *)
Definition extract_photos_from_messages (messages : list pyval)
  : pyerr + list Photo :=
  extract_messages_loop messages [].

(** ** Conversation merge *)

(** Line 153, [merged_data["messages"].extend(data["messages"])]: the
    list held under ["messages"] is looked up first, then its [extend]
    method (only a [list] has one), then the argument; [extend] takes any
    iterable.  The list is extended in place, so [merged_data] afterwards
    holds the longer list under the same key. *)
Definition extend_messages (merged_data data : pyval) : pyerr + pyval :=
  match merged_data with
  | PyDict d =>
      match d !! "messages" with
      | None => raise (KeyError (PyStr "messages"))
      | Some (PyList messages) =>
          more ← py_getitem data "messages";
          items ← py_iter more;
          mret (PyDict (<["messages" := PyList (messages ++ items)]> d))
      | Some _ => raise AttributeError
      end
  | _ => raise TypeError
  end.

(** The iterations of the loop with [index > 0]. *)
Fixpoint merge_rest (merged_data : pyval) (rest : list pyval)
  : pyerr + pyval :=
  match rest with
  | [] => mret merged_data
  | data :: rest =>
      merged_data ← extend_messages merged_data data;
      merge_rest merged_data rest
  end.

(** The loop of [merge_conversation] over the documents loaded from the
    sorted file names: [merged_data] starts as [{}], the document with
    [index == 0] replaces it, the others extend its messages. *)
Definition merge_documents (documents : list pyval) : pyerr + pyval :=
  match documents with
  | [] => mret empty_dict
  | first :: rest => merge_rest first rest
  end.

(** File names as [list.sort] orders them: by code point, which for UTF-8
    is the order of the bytes. *)
Definition name_le (a b : string * pyval) : Prop := String.leb a.1 b.1 = true.

#[global] Instance name_le_dec (a b : string * pyval) : Decision (name_le a b).
Proof. unfold name_le. apply _. Defined.

(** [merge_conversation]: a directory is given by the entries
    [os.listdir] returns, each with the document [json.load] reads from
    it. *)
Definition merge_conversation (directory : list (string * pyval))
  : pyerr + pyval :=
  let json_files :=
    List.filter (fun f => endswith f.1 ".json") directory in
  merge_documents ((merge_sort name_le json_files).*2).

(** ** Dates *)

(** A [datetime] in UTC with no fraction of a second, as
    [datetime.fromtimestamp(t, datetime.UTC)] builds from an [int]. *)
Record DateTime : Type := mkDateTime {
  year : Z; month : Z; day : Z; hour : Z; minute : Z; second : Z
}.

(** [_DAYS_BEFORE_MONTH] and [_DAYS_IN_MONTH] of Python's [datetime],
    with [-1] at index 0 as there. *)
Definition DAYS_IN_MONTH : list Z :=
  [-1; 31; 28; 31; 30; 31; 30; 31; 31; 30; 31; 30; 31].
Definition DAYS_BEFORE_MONTH : list Z :=
  [-1; 0; 31; 59; 90; 120; 151; 181; 212; 243; 273; 304; 334].

Definition table (t : list Z) (i : Z) : Z := nth (Z.to_nat i) t 0.

Definition Z_of_bool (b : bool) : Z := if b then 1 else 0.

(** Month and day of the year's day [n] (from 0), the tail of
    [_ord2ymd]. *)
Definition month_day (n : Z) (leapyear : bool) : Z * Z :=
  let month := Z.shiftr (n + 50) 5 in
  let preceding :=
    table DAYS_BEFORE_MONTH month + Z_of_bool ((2 <? month) && leapyear) in
  if n <? preceding then
    let month := month - 1 in
    let preceding :=
      preceding
      - (table DAYS_IN_MONTH month + Z_of_bool ((month =? 2) && leapyear)) in
    (month, n - preceding + 1)
  else (month, n - preceding + 1).

(** [_ord2ymd]: proleptic Gregorian date of the ordinal [n], where day 1
    is 0001-01-01.  Python's [divmod] rounds down, as [Z.div] and
    [Z.modulo] do for a positive divisor. *)
Definition ord2ymd (n : Z) : Z * Z * Z :=
  let n := n - 1 in
  let n400 := n / 146097 in
  let n := n mod 146097 in
  let year := n400 * 400 + 1 in
  let n100 := n / 36524 in
  let n := n mod 36524 in
  let n4 := n / 1461 in
  let n := n mod 1461 in
  let n1 := n / 365 in
  let n := n mod 365 in
  let year := year + n100 * 100 + n4 * 4 + n1 in
  if (n1 =? 4) || (n100 =? 4) then (year - 1, 12, 31)
  else
    let leapyear := (n1 =? 3) && (negb (n4 =? 24) || (n100 =? 3)) in
    let '(month, day) := month_day n leapyear in
    (year, month, day).

(** Ordinal of 1970-01-01. *)
Definition EPOCH_ORDINAL : Z := 719163.

(** [gmtime(t)]: the UTC calendar fields of [t] seconds after the epoch
    (no leap seconds). *)
Definition gmtime (t : Z) : DateTime :=
  let days := t / 86400 in
  let secs := t mod 86400 in
  let '(y, m, d) := ord2ymd (days + EPOCH_ORDINAL) in
  mkDateTime y m d (secs / 3600) (secs mod 3600 / 60) (secs mod 60).

Definition MINYEAR : Z := 1.
Definition MAXYEAR : Z := 9999.

(** The C types of the platform the conversion goes through (CPython
    3.11 on 64-bit Linux with glibc): [time_t] has 64 bits, and [gmtime]
    stores the year less 1900 in an [int] of 32 bits. *)
Definition TIME_T_MIN : Z := - 2 ^ 63.
Definition TIME_T_MAX : Z := 2 ^ 63 - 1.
Definition INT_MIN : Z := - 2 ^ 31.
Definition INT_MAX : Z := 2 ^ 31 - 1.
Definition TM_YEAR_BASE : Z := 1900.

(** Line 247, [datetime.datetime.fromtimestamp(photo.timestamp,
    datetime.UTC)] for an [int] timestamp.  The timestamp must fit
    [time_t] ([OverflowError] otherwise), [gmtime] must be able to store
    the year ([OSError] otherwise), and the constructor refuses a year
    outside [MINYEAR..MAXYEAR] ([ValueError]); the date has the fields of
    [gmtime]. *)
Definition utc_fromtimestamp (t : Z) : pyerr + DateTime :=
  if negb ((TIME_T_MIN <=? t) && (t <=? TIME_T_MAX))
  then raise (Raised "OverflowError")
  else
    let tm := gmtime t in
    if negb ((INT_MIN <=? year tm - TM_YEAR_BASE)
             && (year tm - TM_YEAR_BASE <=? INT_MAX))
    then raise (Raised "OSError")
    else if (MINYEAR <=? year tm) && (year tm <=? MAXYEAR) then inr tm
    else raise ValueError.

(** The first and the last second [utc_fromtimestamp] accepts:
    0001-01-01 00:00:00 and 9999-12-31 23:59:59. *)
Definition MIN_TIMESTAMP : Z := -62135596800.
Definition MAX_TIMESTAMP : Z := 253402300799.

(** A number in decimal, and padded with zeros on the left to a minimum
    width (C's [%02d]). *)
Definition decimal (n : Z) : string :=
  NilZero.string_of_uint (N.to_uint (Z.to_N n)).

Fixpoint zeros (k : nat) : string :=
  match k with
  | O => EmptyString
  | S k => String "0" (zeros k)
  end.

Definition zero_pad (width : nat) (n : Z) : string :=
  let s := decimal n in
  (zeros (width - String.length s) ++ s)%string.

(** The directives of [strftime] the program uses, as the C library
    (glibc) prints them: [%Y] is the year in as many digits as it has,
    the others have two digits. *)
Definition directive (d : ascii) (dt : DateTime) : string :=
  if Ascii.eqb d "Y" then zero_pad 1 (year dt)
  else if Ascii.eqb d "m" then zero_pad 2 (month dt)
  else if Ascii.eqb d "d" then zero_pad 2 (day dt)
  else if Ascii.eqb d "H" then zero_pad 2 (hour dt)
  else if Ascii.eqb d "M" then zero_pad 2 (minute dt)
  else if Ascii.eqb d "S" then zero_pad 2 (second dt)
  else String "%" (String d EmptyString).

(** [dt.strftime(format)] *)
Fixpoint strftime (dt : DateTime) (format : string) : string :=
  match format with
  | EmptyString => EmptyString
  | String c rest =>
      if Ascii.eqb c "%" then
        match rest with
        | String d rest' => (directive d dt ++ strftime dt rest')%string
        | EmptyString => String c EmptyString
        end
      else String c (strftime dt rest)
  end.

(** ** The metadata writer *)

(** The dictionary [piexif.load] returns: one table of tags per IFD name
    (["0th"], ["Exif"], ["GPS"], ["Interop"], ["1st"]) and the thumbnail
    bytes or [None] under ["thumbnail"]. *)
Inductive exif_value : Type :=
| ExifStr (s : string)
| ExifBytes (b : list Byte.byte)
| ExifInt (n : Z)
| ExifTuple (vs : list exif_value).

Inductive exif_ifd : Type :=
| Ifd (tags : gmap Z exif_value)
| Thumbnail (data : option (list Byte.byte)).

(** The part of piexif the program calls, on file contents: [load] parses
    the EXIF block of an image, [dump] serialises a dictionary, [insert]
    gives the image with its EXIF block replaced. *)
Record Piexif : Type := {
  piexif_load : list Byte.byte → pyerr + gmap string exif_ifd;
  piexif_dump : gmap string exif_ifd → pyerr + list Byte.byte;
  piexif_insert : list Byte.byte → list Byte.byte → pyerr + list Byte.byte
}.

(** [piexif.ExifIFD.DateTimeOriginal] *)
Definition DateTimeOriginal : Z := 36867.

(** The files on disk, each known by the path string it is opened with,
    and what was done to them so far (latest first): a call into piexif
    that reads a file is one [FileRead], however often the library opens
    the file, and the rewrite by [piexif.insert] is one [FileWrite]. *)
Inductive io_event : Type :=
| FileRead (path : string)
| FileWrite (path : string).

Record world : Type := mkWorld {
  files : gmap string (list Byte.byte);
  io_log : list io_event
}.

Definition log (e : io_event) (w : world) : world :=
  mkWorld (files w) (e :: io_log w).

Definition write_file (path : string) (content : list Byte.byte) (w : world)
  : world :=
  mkWorld (<[path := content]> (files w)) (FileWrite path :: io_log w).

(** Line 201: the value written, in the EXIF date format. *)
Definition formatted_date (new_date : DateTime) : string :=
  strftime new_date "%Y:%m:%d %H:%M:%S".

(** Line 204: [exif_dict["Exif"][piexif.ExifIFD.DateTimeOriginal] =
    formatted_date]. *)
Definition set_date_time_original
    (exif_dict : gmap string exif_ifd) (value : string)
  : pyerr + gmap string exif_ifd :=
  match exif_dict !! "Exif" with
  | None => raise (KeyError (PyStr "Exif"))
  | Some (Ifd tags) =>
      mret (<["Exif" := Ifd (<[DateTimeOriginal := ExifStr value]> tags)]>
              exif_dict)
  | Some (Thumbnail _) => raise TypeError
  end.

(** [modify_date_taken]: the outcome and the world after the call. *)
Definition modify_date_taken
    (lib : Piexif) (photo_path : string) (new_date : DateTime) (w : world)
  : (pyerr + ()) * world :=
  if negb (endswith photo_path ".jpg") then (inr (), w)
  else
    let w := log (FileRead photo_path) w in
    match files w !! photo_path with
    | None => (raise FileNotFoundError, w)
    | Some image =>
        match piexif_load lib image with
        | inl e => (inl e, w)
        | inr exif_dict =>
            match set_date_time_original exif_dict (formatted_date new_date)
            with
            | inl e => (inl e, w)
            | inr exif_dict =>
                match piexif_dump lib exif_dict with
                | inl e => (inl e, w)
                | inr exif_bytes =>
                    let w := log (FileRead photo_path) w in
                    match piexif_insert lib exif_bytes image with
                    | inl e => (inl e, w)
                    | inr image => (inr (), write_file photo_path image w)
                    end
                end
            end
        end
    end.

Definition URI_ROOT : string := "facebook_data/".

(** The body of the last loop of [main] for a photo whose [uri] is a
    [str] and whose [timestamp] is an [int]. *)
Definition write_photo (lib : Piexif) (uri : string) (timestamp : Z)
    (w : world) : (pyerr + ()) * world :=
  let filepath := (URI_ROOT ++ uri)%string in
  match utc_fromtimestamp timestamp with
  | inl e => (inl e, w)
  | inr timestamp => modify_date_taken lib filepath timestamp w
  end.

(** The text [main] has [modify_date_taken] write for a timestamp. *)
Definition written_value (timestamp : Z) : pyerr + string :=
  new_date ← utc_fromtimestamp timestamp;
  mret (formatted_date new_date).

(** ** Albums *)

(** The loop of [get_photos_from_album] over the JSON files of the
    directory, in the order [os.listdir] gave them: the photos under
    ["photos"] are extracted and appended. *)
Fixpoint album_loop (json_files : list (string * pyval)) (photos : list Photo)
  : pyerr + list Photo :=
  match json_files with
  | [] => mret photos
  | file :: rest =>
      photos_data ← py_getitem file.2 "photos";
      items ← py_iter photos_data;
      extracted ← extract_photos_from_list items;
      album_loop rest (photos ++ extracted)
  end.

(** [get_photos_from_album]: the directory is given as for
    [merge_conversation]; the file names are not sorted here. *)
Definition get_photos_from_album (album_dir : list (string * pyval))
  : pyerr + list Photo :=
  let json_files :=
    List.filter (fun f => endswith f.1 ".json") album_dir in
  album_loop json_files [].

(** ** The run *)

Definition MESSAGES_DIR : string :=
  "facebook_data/your_activity_across_facebook/messages".
Definition INBOX_DIR : string := (MESSAGES_DIR ++ "/inbox")%string.
Definition ARCHIVED_DIR : string :=
  (MESSAGES_DIR ++ "/archived_threads")%string.

(** What [os.scandir] yields: a file, or a directory with its own
    listing. *)
Inductive dir_entry : Type :=
| FileEntry (name : string)
| DirEntry (name : string) (listing : list (string * pyval)).

(** The entries of one directory for which [entry.is_dir()] holds, each
    with its path and, standing for the directory itself, its listing. *)
Definition scan_directories (directory : string) (entries : list dir_entry)
  : list (string * list (string * pyval)) :=
  omap (fun entry =>
          match entry with
          | DirEntry name listing =>
              Some ((directory ++ "/" ++ name)%string, listing)
          | FileEntry _ => None
          end) entries.

(** [get_all_message_dirs]: the conversations of the inbox, then the
    archived ones. *)
Definition get_all_message_dirs (inbox archived : list dir_entry)
  : list (string * list (string * pyval)) :=
  scan_directories INBOX_DIR inbox ++ scan_directories ARCHIVED_DIR archived.

(** The JSON side of an export, every file already read by [json.load]:
    the two message collections, the album directory and the two single
    documents. *)
Record export : Type := mkExport {
  inbox : list dir_entry;
  archived_threads : list dir_entry;
  albums : list (string * pyval);
  uncategorized_document : pyval;
  posts_document : pyval
}.

(** The first loop of [main], lines 222-225. *)
Fixpoint collect_message_photos
    (message_dirs : list (string * list (string * pyval)))
    (all_message_photos : list Photo) : pyerr + list Photo :=
  match message_dirs with
  | [] => mret all_message_photos
  | message_dir :: rest =>
      conversation ← merge_conversation message_dir.2;
      messages ← py_getitem conversation "messages";
      messages ← py_iter messages;
      message_photos ← extract_photos_from_messages messages;
      collect_message_photos rest (all_message_photos ++ message_photos)
  end.

(** Lines 220-241 of [main]: the photos of the conversations, the albums,
    the uncategorized photos and the posts, in that order. *)
Definition collect_photos (e : export) : pyerr + list Photo :=
  all_message_photos ←
    collect_message_photos
      (get_all_message_dirs (inbox e) (archived_threads e)) [];
  album_photos ← get_photos_from_album (albums e);
  uncategorized ← py_getitem (uncategorized_document e) "other_photos_v2";
  uncategorized ← py_iter uncategorized;
  uncategorized_photos ← extract_photos_from_list uncategorized;
  posts ← py_iter (posts_document e);
  posts_photos ← extract_photos_from_posts posts;
  mret (all_message_photos ++ album_photos ++ uncategorized_photos
        ++ posts_photos).

(** [datetime.datetime.fromtimestamp(timestamp, datetime.UTC)] for any
    value: an [int] (and a [bool], which is one) converts as above, a
    [float] is rounded by the platform's floating-point arithmetic, which
    [float_fromtimestamp] stands for, and nothing else is a number. *)
Definition fromtimestamp
    (float_fromtimestamp : Z → Z → pyerr + DateTime) (timestamp : pyval)
  : pyerr + DateTime :=
  match timestamp with
  | PyInt n => utc_fromtimestamp n
  | PyBool b => utc_fromtimestamp (Z_of_bool b)
  | PyFloat mantissa exponent => float_fromtimestamp mantissa exponent
  | _ => raise TypeError
  end.

(** Lines 246-248, the body of the last loop of [main]:
    [URI_ROOT + photo.uri] wants a [str]. *)
Definition write_record
    (lib : Piexif) (float_fromtimestamp : Z → Z → pyerr + DateTime)
    (photo : Photo) (w : world) : (pyerr + ()) * world :=
  match uri photo with
  | PyStr u =>
      let filepath := (URI_ROOT ++ u)%string in
      match fromtimestamp float_fromtimestamp (timestamp photo) with
      | inl e => (inl e, w)
      | inr timestamp => modify_date_taken lib filepath timestamp w
      end
  | _ => (raise TypeError, w)
  end.

(** The last loop of [main]: an exception ends it. *)
Fixpoint write_all
    (lib : Piexif) (float_fromtimestamp : Z → Z → pyerr + DateTime)
    (all_photos : list Photo) (w : world) : (pyerr + ()) * world :=
  match all_photos with
  | [] => (inr (), w)
  | photo :: rest =>
      match write_record lib float_fromtimestamp photo w with
      | (inl e, w) => (inl e, w)
      | (inr _, w) => write_all lib float_fromtimestamp rest w
      end
  end.

(** [main]: the export's JSON documents are given as read; the world
    holds the image files. *)
Definition main
    (lib : Piexif) (float_fromtimestamp : Z → Z → pyerr + DateTime)
    (e : export) (w : world) : (pyerr + ()) * world :=
  match collect_photos e with
  | inl err => (inl err, w)
  | inr all_photos => write_all lib float_fromtimestamp all_photos w
  end.

(** ** Shapes of the export and example documents *)

(** The ways a fragment has no usable taken-timestamp for which the code
    falls back: a level of the path is missing, or the first block has no
    [taken_timestamp] or holds [null] there. *)
Inductive falls_back (s : gmap string pyval) : Prop :=
| no_media_metadata :
    s !! "media_metadata" = None → falls_back s
| no_photo_metadata mm :
    s !! "media_metadata" = Some (PyDict mm) →
    mm !! "photo_metadata" = None → falls_back s
| no_exif_data mm pm :
    s !! "media_metadata" = Some (PyDict mm) →
    mm !! "photo_metadata" = Some (PyDict pm) →
    pm !! "exif_data" = None → falls_back s
| no_taken_in_first_block mm pm blk later :
    s !! "media_metadata" = Some (PyDict mm) →
    mm !! "photo_metadata" = Some (PyDict pm) →
    pm !! "exif_data" = Some (PyList (PyDict blk :: later)) →
    default PyNone (blk !! "taken_timestamp") = PyNone → falls_back s.

(** A fragment whose [exif_data] list is present and empty. *)
Definition fragment_empty_exif : pyval :=
  PyDict {[ "uri" := PyStr "photos/a.jpg";
            "creation_timestamp" := PyInt 1000;
            "media_metadata" :=
              PyDict {[ "photo_metadata" :=
                PyDict {[ "exif_data" := PyList [] ]} ]} ]}.

(** The same without a [creation_timestamp]. *)
Definition fragment_empty_exif_no_creation : pyval :=
  PyDict {[ "uri" := PyStr "photos/a.jpg";
            "media_metadata" :=
              PyDict {[ "photo_metadata" :=
                PyDict {[ "exif_data" := PyList [] ]} ]} ]}.

(** A photo fragment with only the two required fields. *)
Definition plain_photo (path : string) (created : Z) : pyval :=
  PyDict {[ "uri" := PyStr path; "creation_timestamp" := PyInt created ]}.

(** The data entries the code reads from a post: those of the first
    attachment; a post without attachments, or a first attachment
    without data, counts as the single entry [{}]. *)
Inductive post_entries : pyval → list (gmap string pyval) → Prop :=
| entries_no_attachments (p : gmap string pyval) :
    p !! "attachments" = None →
    post_entries (PyDict p) [∅]
| entries_no_data (p a : gmap string pyval) later :
    p !! "attachments" = Some (PyList (PyDict a :: later)) →
    a !! "data" = None →
    post_entries (PyDict p) [∅]
| entries_of_first (p a : gmap string pyval) later entries :
    p !! "attachments" = Some (PyList (PyDict a :: later)) →
    a !! "data" = Some (PyList (PyDict <$> entries)) →
    post_entries (PyDict p) entries.

(** A media fragment and the record extracted from it. *)
Definition extracts (media : pyval) (p : Photo) : Prop :=
  from_json_structure media = inr p.

(** The media fragments of the entries that have a ["media"] key. *)
Definition media_of (entries : list (gmap string pyval)) : list pyval :=
  omap (fun e : gmap string pyval => e !! "media") entries.

Definition has_media (e : gmap string pyval) : bool :=
  bool_decide (is_Some (e !! "media")).

(** The attachments of a post, the data entries of an attachment. *)
Definition attachments_of (post : pyval) : list pyval :=
  match post with
  | PyDict p =>
      match p !! "attachments" with Some (PyList l) => l | _ => [] end
  | _ => []
  end.

Definition data_of (attachment : pyval) : list pyval :=
  match attachment with
  | PyDict a => match a !! "data" with Some (PyList l) => l | _ => [] end
  | _ => []
  end.

Definition entry_has_media (entry : pyval) : bool :=
  match entry with
  | PyDict e => has_media e
  | _ => false
  end.

(** In the spec's words: the data entries that contain a ["media"] key,
    across every attachment of every post. *)
Definition spec_media_entries (data : list pyval) : list pyval :=
  List.filter entry_has_media
    (concat (data_of <$> concat (attachments_of <$> data))).

(** A post with two attachments, one photo in each. *)
Definition post_two_attachments : pyval :=
  PyDict {[ "attachments" :=
    PyList [ PyDict {[ "data" :=
               PyList [PyDict {[ "media" := plain_photo "photos/a.jpg" 1 ]}] ]};
             PyDict {[ "data" :=
               PyList [PyDict {[ "media" := plain_photo "photos/b.jpg" 2 ]}] ]}
           ] ]}.

(** A post with two data entries, one with media and one without. *)
Definition post_media_and_text : pyval :=
  PyDict {[ "attachments" :=
    PyList [ PyDict {[ "data" :=
      PyList [ PyDict {[ "media" := plain_photo "photos/a.jpg" 1 ]};
               PyDict {[ "text" := PyStr "hello" ]} ] ]} ] ]}.

(** A conversation fragment with its messages: an object whose
    ["messages"] field is a list. *)
Definition has_messages (d : gmap string pyval) (ms : list pyval) : Prop :=
  d !! "messages" = Some (PyList ms).

(** An object whose ["messages"] field, when there is one, is a list. *)
Definition messages_well_typed (d : gmap string pyval) : Prop :=
  ∀ v, d !! "messages" = Some v → ∃ ms, v = PyList ms.

(** Example fragments: the first carries participant metadata. *)
Definition fragment_a : gmap string pyval :=
  {[ "participants" := PyList [PyStr "ann"; PyStr "bob"];
     "messages" := PyList [PyStr "a"] ]}.
Definition fragment_bc : gmap string pyval :=
  {[ "participants" := PyList [PyStr "eve"];
     "messages" := PyList [PyStr "b"; PyStr "c"] ]}.
Definition fragment_without_messages : gmap string pyval :=
  {[ "participants" := PyList [PyStr "ann"; PyStr "bob"] ]}.

(** The EXIF date pattern [YYYY:MM:DD HH:MM:SS]: nineteen characters,
    digits except for the colons and the space at their places. *)
Definition is_digit (c : ascii) : bool :=
  let n := N_of_ascii c in ((48 <=? n) && (n <=? 57))%N.

Definition is_colon (c : ascii) : bool := Ascii.eqb c ":".
Definition is_space (c : ascii) : bool := Ascii.eqb c " ".

Definition exif_date_pattern (s : string) : bool :=
  match list_ascii_of_string s with
  | [y1; y2; y3; y4; c1; m1; m2; c2; d1; d2; sp; h1; h2; c3; n1; n2; c4;
     s1; s2] =>
      forallb is_digit [y1; y2; y3; y4; m1; m2; d1; d2; h1; h2; n1; n2; s1; s2]
      && forallb is_colon [c1; c2; c3; c4]
      && is_space sp
  | _ => false
  end.

Definition digits (k : nat) (s : string) : bool :=
  (String.length s =? k)%nat && forallb is_digit (list_ascii_of_string s).

(** The month is one of twelve and the day at most 31. *)
Definition month_day_ok (n : Z) (leapyear : bool) : bool :=
  let '(m, d) := month_day n leapyear in
  (1 <=? m) && (m <=? 12) && (1 <=? d) && (d <=? 31).

(** The first second of the year 1000, 1000-01-01 00:00:00 UTC: from then
    on the year has four digits. *)
Definition YEAR_1000_TIMESTAMP : Z := -30610224000.

(** A piexif that finds no EXIF block in any file, for the examples. *)
Definition piexif_without_exif : Piexif :=
  {| piexif_load := fun _ => raise (Raised "InvalidImageDataError");
     piexif_dump := fun _ => raise (Raised "ValueError");
     piexif_insert := fun _ _ => raise (Raised "InvalidImageDataError") |}.

(** A disk with one file, and nothing read or written yet. *)
Definition one_file (path : string) : world :=
  mkWorld {[ path := [] ]} [].

Definition noon_2023 : DateTime := mkDateTime 2023 11 14 12 0 0.

(** The metadata path of a fragment as the export writes it: every level
    is missing or an object, and [exif_data], when there, is a list that
    starts with an object. *)
Inductive well_shaped (s : gmap string pyval) : Prop :=
| shaped_fallback : falls_back s → well_shaped s
| shaped_first_block mm pm blk later :
    s !! "media_metadata" = Some (PyDict mm) →
    mm !! "photo_metadata" = Some (PyDict pm) →
    pm !! "exif_data" = Some (PyList (PyDict blk :: later)) →
    well_shaped s.

(** The photo fragments attached to a message: none without a ["photos"]
    key, else the list under it. *)
Inductive message_photos : pyval → list pyval → Prop :=
| message_without_photos (m : gmap string pyval) :
    m !! "photos" = None → message_photos (PyDict m) []
| message_with_photos (m : gmap string pyval) photos_data :
    m !! "photos" = Some (PyList photos_data) →
    message_photos (PyDict m) photos_data.

(** The photo fragments of an album file. *)
Definition album_photos (file : string * pyval) (photos_data : list pyval)
  : Prop :=
  ∃ d : gmap string pyval,
    file.2 = PyDict d ∧ d !! "photos" = Some (PyList photos_data).

Definition is_json (f : string * pyval) : bool := endswith f.1 ".json".

(** An album file that holds one photo, and a photo with a
    taken-timestamp. *)
Definition album_of (photo : pyval) : pyval :=
  PyDict {[ "name" := PyStr "album"; "photos" := PyList [photo] ]}.

Definition photo_taken (path : string) (created taken : Z) : pyval :=
  PyDict {[ "uri" := PyStr path;
            "creation_timestamp" := PyInt created;
            "media_metadata" :=
              PyDict {[ "photo_metadata" :=
                PyDict {[ "exif_data" :=
                  PyList [PyDict {[ "taken_timestamp" := PyInt taken ]}]
                ]} ]} ]}.

(** The calendar the other way round, as Python's [datetime] has it:
    [_is_leap], [_days_before_year], [_days_in_month],
    [_days_before_month], [_ymd2ord], and the seconds since the epoch of
    a UTC date, [datetime.timestamp()]. *)
Definition is_leap (year : Z) : bool :=
  (year mod 4 =? 0) && (negb (year mod 100 =? 0) || (year mod 400 =? 0)).

Definition days_before_year (year : Z) : Z :=
  let y := year - 1 in y * 365 + y / 4 - y / 100 + y / 400.

Definition days_in_month (year month : Z) : Z :=
  if (month =? 2) && is_leap year then 29 else table DAYS_IN_MONTH month.

Definition days_before_month (year month : Z) : Z :=
  table DAYS_BEFORE_MONTH month + Z_of_bool ((2 <? month) && is_leap year).

Definition ymd2ord (year month day : Z) : Z :=
  days_before_year year + days_before_month year month + day.

Definition timestamp_of (dt : DateTime) : Z :=
  (ymd2ord (year dt) (month dt) (day dt) - EPOCH_ORDINAL) * 86400
  + hour dt * 3600 + minute dt * 60 + second dt.

(** Fields in the ranges of a [datetime]. *)
Definition valid_date (dt : DateTime) : Prop :=
  MINYEAR ≤ year dt ≤ MAXYEAR
  ∧ 1 ≤ month dt ≤ 12
  ∧ 1 ≤ day dt ≤ days_in_month (year dt) (month dt)
  ∧ 0 ≤ hour dt ≤ 23 ∧ 0 ≤ minute dt ≤ 59 ∧ 0 ≤ second dt ≤ 59.

(** Reading a text in the EXIF date pattern back into its fields. *)
Definition digit_value (c : ascii) : Z := Z.of_N (N_of_ascii c) - 48.

Definition number (cs : list ascii) : Z :=
  fold_left (fun acc c => acc * 10 + digit_value c) cs 0.

Definition read_exif_date (s : string) : option DateTime :=
  if exif_date_pattern s then
    match list_ascii_of_string s with
    | [y1; y2; y3; y4; _; m1; m2; _; d1; d2; _; h1; h2; _; n1; n2; _;
       s1; s2] =>
        Some (mkDateTime (number [y1; y2; y3; y4]) (number [m1; m2])
                (number [d1; d2]) (number [h1; h2]) (number [n1; n2])
                (number [s1; s2]))
    | _ => None
    end
  else None.

(** A piexif on toy images: an image is nothing but the text of its
    DateTimeOriginal tag (empty when it has none), so [load] gives an
    Exif table with at most that tag, [dump] gives the text of the tag
    and [insert] replaces the image by the block. *)
Definition toy_piexif : Piexif :=
  {| piexif_load := fun image =>
       inr {[ "Exif" :=
              Ifd match image with
                  | [] => ∅
                  | _ => {[ DateTimeOriginal :=
                              ExifStr (string_of_list_byte image) ]}
                  end ]};
     piexif_dump := fun exif_dict =>
       match exif_dict !! "Exif" with
       | Some (Ifd tags) =>
           match tags !! DateTimeOriginal with
           | Some (ExifStr s) => inr (list_byte_of_string s)
           | _ => inr []
           end
       | _ => raise (Raised "ValueError")
       end;
     piexif_insert := fun exif_bytes _ => inr exif_bytes |}.

(** A float timestamp is refused in the examples. *)
Definition no_floats (mantissa exponent : Z) : pyerr + DateTime :=
  raise ValueError.

(** [month_day] undone: the days before the month and the day of the
    month add up to the day of the year, and the day fits the month. *)
Definition month_day_inverse_ok (n : Z) (leapyear : bool) : bool :=
  let '(m, d) := month_day n leapyear in
  (table DAYS_BEFORE_MONTH m + Z_of_bool ((2 <? m) && leapyear) + d =? n + 1)
  && (1 <=? m) && (m <=? 12) && (1 <=? d)
  && (d <=? (if (m =? 2) && leapyear then 29 else table DAYS_IN_MONTH m)).

(** The first and the last second whose year less 1900 fits a C [int]:
    the timestamps [gmtime] can convert. *)
Definition GMTIME_MIN : Z := -67768040609740800.
Definition GMTIME_MAX : Z := 67768036191676799.

(** * Properties *)

Ltac run := unfold mbind, mret, pyerr_bind, pyerr_ret, raise; simpl.

(** ** Single-fragment extraction *)

Lemma py_getitem_Some (d : gmap string pyval) key x :
  d !! key = Some x → py_getitem (PyDict d) key = inr x.
Proof. intros H. unfold py_getitem. by rewrite H. Qed.

Lemma py_getitem_None (d : gmap string pyval) key :
  d !! key = None → py_getitem (PyDict d) key = inl (KeyError (PyStr key)).
Proof. intros H. unfold py_getitem. by rewrite H. Qed.
(** C1: a fragment that has a taken-timestamp in the first block of
    media_metadata -> photo_metadata -> exif_data and a top-level
    creation_timestamp yields the record with the taken-timestamp,
    whatever the creation_timestamp is. *)
Theorem from_json_structure_takes_taken_timestamp
    (s mm pm blk : gmap string pyval) (later : list pyval) (u : pyval)
    (taken created : Z) :
  s !! "uri" = Some u →
  s !! "creation_timestamp" = Some (PyInt created) →
  s !! "media_metadata" = Some (PyDict mm) →
  mm !! "photo_metadata" = Some (PyDict pm) →
  pm !! "exif_data" = Some (PyList (PyDict blk :: later)) →
  blk !! "taken_timestamp" = Some (PyInt taken) →
  from_json_structure (PyDict s) = inr (mkPhoto u (PyInt taken)).
Proof.
  intros Hu _ Hmm Hpm Hex Ht.
  unfold from_json_structure.
  rewrite (py_getitem_Some _ _ _ Hu). run.
  rewrite Hmm. simpl. rewrite Hpm. simpl. rewrite Hex. simpl.
  by rewrite Ht.
Qed.

Lemma from_json_structure_takes_taken_timestamp_witness :
  from_json_structure
    (PyDict {[ "uri" := PyStr "photos/b.jpg";
               "creation_timestamp" := PyInt 1000;
               "media_metadata" :=
                 PyDict {[ "photo_metadata" :=
                   PyDict {[ "exif_data" :=
                     PyList [PyDict {[ "taken_timestamp" := PyInt 2000 ]}]
                   ]} ]} ]})
  = inr (mkPhoto (PyStr "photos/b.jpg") (PyInt 2000)).
Proof.
  apply (from_json_structure_takes_taken_timestamp
           _ {[ "photo_metadata" :=
                   PyDict {[ "exif_data" :=
                     PyList [PyDict {[ "taken_timestamp" := PyInt 2000 ]}]
                   ]} ]}
           {[ "exif_data" :=
                     PyList [PyDict {[ "taken_timestamp" := PyInt 2000 ]}] ]}
           {[ "taken_timestamp" := PyInt 2000 ]} [] _ 2000 1000);
    reflexivity.
Defined.

(** In each of those cases the record carries the creation_timestamp,
    and a fragment without one raises [KeyError]. *)
Lemma from_json_structure_falls_back (s : gmap string pyval) (u : pyval) :
  s !! "uri" = Some u →
  falls_back s →
  from_json_structure (PyDict s) =
    match s !! "creation_timestamp" with
    | Some created => inr (mkPhoto u created)
    | None => inl (KeyError (PyStr "creation_timestamp"))
    end.
Proof.
  intros Hu Hfb. unfold from_json_structure.
  rewrite (py_getitem_Some _ _ _ Hu). run.
  destruct Hfb as [Hmm|mm Hmm Hpm|mm pm Hmm Hpm Hex|mm pm blk later Hmm Hpm Hex Ht].
  - rewrite Hmm. simpl. rewrite lookup_empty. simpl. rewrite lookup_empty.
    simpl. rewrite lookup_empty. simpl. destruct (s !! "creation_timestamp"); reflexivity.
  - rewrite Hmm. simpl. rewrite Hpm. simpl. rewrite lookup_empty.
    simpl. rewrite lookup_empty. simpl. destruct (s !! "creation_timestamp"); reflexivity.
  - rewrite Hmm. simpl. rewrite Hpm. simpl. rewrite Hex. simpl.
    rewrite lookup_empty. simpl. destruct (s !! "creation_timestamp"); reflexivity.
  - rewrite Hmm. simpl. rewrite Hpm. simpl. rewrite Hex. simpl.
    rewrite Ht. destruct (s !! "creation_timestamp"); reflexivity.
Qed.

(** C3: a fragment whose [exif_data] is present and empty makes
    [from_json_structure] raise [IndexError], which is no [KeyError] for a
    missing field: indexing the empty list with [[0]] fails before the
    fallback to [creation_timestamp] is reached. *)
Theorem from_json_structure_empty_exif_data
    (s mm pm : gmap string pyval) (u : pyval) :
  s !! "uri" = Some u →
  s !! "media_metadata" = Some (PyDict mm) →
  mm !! "photo_metadata" = Some (PyDict pm) →
  pm !! "exif_data" = Some (PyList []) →
  from_json_structure (PyDict s) = inl IndexError.
Proof.
  intros Hu Hmm Hpm Hex. unfold from_json_structure.
  rewrite (py_getitem_Some _ _ _ Hu). run.
  rewrite Hmm. simpl. rewrite Hpm. simpl. by rewrite Hex.
Qed.

Lemma from_json_structure_empty_exif_data_witness :
  from_json_structure fragment_empty_exif = inl IndexError.
Proof.
  apply (from_json_structure_empty_exif_data
           _ {[ "photo_metadata" := PyDict {[ "exif_data" := PyList [] ]} ]}
           {[ "exif_data" := PyList [] ]} (PyStr "photos/a.jpg"));
    reflexivity.
Defined.

(** C4: the fragment with [creation_timestamp] 1000 and an empty
    [exif_data] has no taken-timestamp, yet no record with timestamp 1000
    comes back: the call raises [IndexError]; and without a
    [creation_timestamp] the error is the same [IndexError], not the
    [KeyError] of a missing field. *)
Theorem from_json_structure_no_fallback_on_empty_exif :
  from_json_structure fragment_empty_exif = inl IndexError
  ∧ from_json_structure fragment_empty_exif
    ≠ inr (mkPhoto (PyStr "photos/a.jpg") (PyInt 1000))
  ∧ from_json_structure fragment_empty_exif_no_creation = inl IndexError
  ∧ from_json_structure fragment_empty_exif_no_creation
    ≠ inl (KeyError (PyStr "creation_timestamp")).
Proof.
  assert (H1 : from_json_structure fragment_empty_exif = inl IndexError)
    by reflexivity.
  assert (H2 : from_json_structure fragment_empty_exif_no_creation
               = inl IndexError) by reflexivity.
  rewrite H1, H2. repeat split; discriminate.
Qed.


(** ** Posts *)

Section Posts.
Implicit Types (entries : list (gmap string pyval)) (photos : list Photo).

Lemma data_section_entries post entries :
  post_entries post entries →
  data_section post = inr (PyList (PyDict <$> entries)).
Proof.
  destruct 1 as [p Ha|p a later Ha Hd|p a later entries Ha Hd];
    unfold data_section; run; rewrite Ha; simpl;
    rewrite ?lookup_empty, ?Hd; reflexivity.
Qed.

Lemma extract_entries_media entries : ∀ acc photos,
  Forall2 extracts (media_of entries) photos →
  extract_entries (PyDict <$> entries) acc = inr (acc ++ photos).
Proof.
  induction entries as [|e entries IH]; intros acc photos Hph; simpl in *.
  - apply Forall2_nil_inv_l in Hph as ->. by rewrite app_nil_r.
  - run. unfold media_of in Hph. simpl in Hph.
    destruct (e !! "media") as [m|] eqn:Hm; simpl in *.
    + apply Forall2_cons_inv_l in Hph as (p & photos' & Hp & Hrest & ->).
      unfold extracts in Hp. rewrite Hp. simpl.
      rewrite (IH _ _ Hrest). by rewrite <- app_assoc.
    + by apply IH.
Qed.

Lemma extract_posts_loop_media data (sections : list (list (gmap string pyval))) :
  Forall2 post_entries data sections →
  ∀ acc photos,
    Forall2 extracts (media_of (concat sections)) photos →
    extract_posts_loop data acc = inr (acc ++ photos).
Proof.
  induction 1 as [|post entries data sections Hpost _ IH];
    intros acc photos Hph; simpl in *.
  - apply Forall2_nil_inv_l in Hph as ->. by rewrite app_nil_r.
  - unfold media_of in Hph. rewrite omap_app in Hph.
    apply Forall2_app_inv_l in Hph as (ph1 & ph2 & H1 & H2 & ->).
    rewrite (data_section_entries _ _ Hpost). run.
    rewrite (extract_entries_media _ _ _ H1).
    rewrite (IH _ _ H2). by rewrite <- app_assoc.
Qed.

Lemma length_media_of entries :
  length (media_of entries) = length (List.filter has_media entries).
Proof.
  induction entries as [|e entries IH]; [done|].
  unfold media_of, has_media in *. simpl.
  destruct (e !! "media") eqn:Hm; simpl; [f_equal|]; exact IH.
Qed.
End Posts.

(** C2, as the code has it: when every post has the shape the export
    gives it and every media fragment extracts, [extract_photos_from_posts]
    returns, in order, exactly the records of the data entries of each
    post's first attachment that have a ["media"] key, one for each; the
    entries without the key are skipped without an error. *)
Theorem extract_photos_from_posts_first_attachment
    (data : list pyval) (sections : list (list (gmap string pyval)))
    (photos : list Photo) :
  Forall2 post_entries data sections →
  Forall2 extracts (media_of (concat sections)) photos →
  extract_photos_from_posts data = inr photos
  ∧ length photos = length (List.filter has_media (concat sections)).
Proof.
  intros Hposts Hph. split.
  - unfold extract_photos_from_posts.
    by rewrite (extract_posts_loop_media _ _ Hposts [] photos Hph).
  - rewrite <- length_media_of. symmetry. by eapply Forall2_length.
Qed.

(** The spec's example: one entry with media, one without, one record. *)
Lemma extract_photos_from_posts_first_attachment_witness :
  extract_photos_from_posts [post_media_and_text]
    = inr [mkPhoto (PyStr "photos/a.jpg") (PyInt 1)]
  ∧ length [mkPhoto (PyStr "photos/a.jpg") (PyInt 1)] = 1%nat.
Proof.
  change 1%nat with
    (length (List.filter has_media
       (concat [[ ({[ "media" := plain_photo "photos/a.jpg" 1 ]}
                     : gmap string pyval);
                  {[ "text" := PyStr "hello" ]} ]]))).
  apply (extract_photos_from_posts_first_attachment
           [post_media_and_text]
           [[ {[ "media" := plain_photo "photos/a.jpg" 1 ]};
              {[ "text" := PyStr "hello" ]} ]]
           [mkPhoto (PyStr "photos/a.jpg") (PyInt 1)]).
  - repeat constructor.
    eapply (entries_of_first _ _ []); reflexivity.
  - repeat constructor.
Defined.

(** C2, as stated, fails: a post with two attachments that hold one photo
    each has two data entries with a ["media"] key, and one record is
    extracted. *)
Lemma extract_photos_from_posts_later_attachments_ignored :
  length (spec_media_entries [post_two_attachments]) = 2%nat
  ∧ extract_photos_from_posts [post_two_attachments]
    = inr [mkPhoto (PyStr "photos/a.jpg") (PyInt 1)]
  ∧ ¬ (∃ photos,
         extract_photos_from_posts [post_two_attachments] = inr photos
         ∧ length photos = length (spec_media_entries [post_two_attachments])).
Proof.
  assert (Hrun : extract_photos_from_posts [post_two_attachments]
                 = inr [mkPhoto (PyStr "photos/a.jpg") (PyInt 1)])
    by reflexivity.
  assert (Hspec : length (spec_media_entries [post_two_attachments]) = 2%nat)
    by reflexivity.
  split; [exact Hspec|]. split; [exact Hrun|].
  intros (photos & Hp & Hl). rewrite Hrun in Hp. injection Hp as <-.
  rewrite Hspec in Hl. discriminate.
Qed.

(** ** Conversation merge *)

Lemma extend_messages_fragment (d data : gmap string pyval) ms more :
  has_messages d ms → has_messages data more →
  extend_messages (PyDict d) (PyDict data)
  = inr (PyDict (<["messages" := PyList (ms ++ more)]> d)).
Proof.
  unfold has_messages, extend_messages. intros -> Hd. run. by rewrite Hd.
Qed.

Lemma merge_rest_cons merged_data data rest :
  merge_rest merged_data (data :: rest)
  = match extend_messages merged_data data with
    | inl e => inl e
    | inr merged_data => merge_rest merged_data rest
    end.
Proof. reflexivity. Qed.

Lemma merge_rest_concat (rest : list (gmap string pyval)) :
  ∀ (d : gmap string pyval) ms (mss : list (list pyval)),
    has_messages d ms →
    Forall2 has_messages rest mss →
    merge_rest (PyDict d) (PyDict <$> rest)
    = inr (PyDict (<["messages" := PyList (ms ++ concat mss)]> d)).
Proof.
  induction rest as [|data rest IH]; intros d ms mss Hd Hrest.
  - apply Forall2_nil_inv_l in Hrest as ->. simpl. rewrite app_nil_r.
    unfold mret, pyerr_ret. by rewrite insert_id.
  - apply Forall2_cons_inv_l in Hrest as (more & mss' & Hdata & Hrest & ->).
    rewrite fmap_cons, merge_rest_cons.
    rewrite (extend_messages_fragment _ _ _ _ Hd Hdata).
    rewrite (IH _ (ms ++ more) mss'); [|apply lookup_insert_eq|done].
    rewrite insert_insert_eq. simpl. by rewrite <- app_assoc.
Qed.

(** C5, as the code has it: for a sequence of at least one fragment, the
    merged document is the first fragment with its messages replaced by
    the concatenation of all fragments' messages in order; a single
    fragment comes back unchanged. *)
Theorem merge_documents_concatenates
    (first : gmap string pyval) (rest : list (gmap string pyval))
    (mss : list (list pyval)) :
  Forall2 has_messages (first :: rest) mss →
  merge_documents (PyDict <$> first :: rest)
  = inr (PyDict (<["messages" := PyList (concat mss)]> first))
  ∧ (rest = [] →
     merge_documents (PyDict <$> first :: rest) = inr (PyDict first)).
Proof.
  intros Hall.
  apply Forall2_cons_inv_l in Hall as (ms & mss' & Hfirst & Hrest & ->).
  split.
  - simpl. by apply merge_rest_concat.
  - intros ->. reflexivity.
Qed.

(** The spec's example, with the messages "a", "b" and "c". *)
Lemma merge_documents_concatenates_witness :
  merge_documents (PyDict <$> [fragment_a; fragment_bc])
  = inr (PyDict (<["messages" := PyList [PyStr "a"; PyStr "b"; PyStr "c"]]>
                   fragment_a))
  ∧ (([fragment_bc] : list (gmap string pyval)) = [] →
     merge_documents (PyDict <$> [fragment_a; fragment_bc])
     = inr (PyDict fragment_a)).
Proof.
  apply (merge_documents_concatenates fragment_a [fragment_bc]
           [[PyStr "a"]; [PyStr "b"; PyStr "c"]]).
  repeat constructor.
Defined.

(** C5, as stated, fails for the empty sequence: the merged document is
    [{}], which has no messages field, where the concatenation of no
    lists is the empty list. *)
Lemma merge_documents_nothing_has_no_messages :
  merge_documents [] = inr (PyDict ∅)
  ∧ ¬ (∃ d : gmap string pyval,
         merge_documents [] = inr (PyDict d)
         ∧ d !! "messages" = Some (PyList (concat []))).
Proof.
  split; [reflexivity|].
  intros (d & Hd & Hm). injection Hd as <-.
  by rewrite lookup_empty in Hm.
Qed.

Lemma extend_messages_frame merged_data data result :
  extend_messages merged_data data = inr result →
  ∃ (d d' : gmap string pyval),
    merged_data = PyDict d ∧ result = PyDict d'
    ∧ ∀ k, k ≠ "messages" → d' !! k = d !! k.
Proof.
  unfold extend_messages.
  destruct merged_data as [| | | | | |d]; try discriminate.
  destruct (d !! "messages") as [[| | | | |ms|]|]; try discriminate.
  run. destruct (py_getitem data "messages") as [|more]; [discriminate|].
  destruct (py_iter more) as [|items]; [discriminate|].
  intros [= <-]. eexists d, _. repeat split.
  intros k Hk. by rewrite lookup_insert_ne.
Qed.

Lemma merge_rest_frame rest : ∀ (d : gmap string pyval) result,
  merge_rest (PyDict d) rest = inr result →
  ∃ d' : gmap string pyval,
    result = PyDict d' ∧ ∀ k, k ≠ "messages" → d' !! k = d !! k.
Proof.
  induction rest as [|data rest IH]; intros d result Hm.
  - injection Hm as <-. by exists d.
  - revert Hm. rewrite merge_rest_cons.
    destruct (extend_messages (PyDict d) data) as [|next] eqn:Hext;
      [discriminate|].
    apply extend_messages_frame in Hext as (d0 & d1 & [= <-] & -> & Hframe).
    intros Hm. apply IH in Hm as (d' & -> & Hframe').
    exists d'. split; [done|]. intros k Hk.
    by rewrite Hframe', Hframe.
Qed.

(** C6: when a merge of two or more fragments returns, the first fragment
    is an object and every field of the result other than ["messages"]
    is that of the first fragment, present or absent alike. *)
Theorem merge_documents_keeps_first_fields
    (first second : pyval) (rest : list pyval) (result : pyval) :
  merge_documents (first :: second :: rest) = inr result →
  ∃ d d' : gmap string pyval,
    first = PyDict d ∧ result = PyDict d'
    ∧ ∀ k, k ≠ "messages" → d' !! k = d !! k.
Proof.
  unfold merge_documents. rewrite merge_rest_cons.
  destruct (extend_messages first second) as [|next] eqn:Hext;
    [discriminate|].
  apply extend_messages_frame in Hext as (d & d1 & -> & -> & Hframe).
  intros Hm. apply merge_rest_frame in Hm as (d' & -> & Hframe').
  exists d, d'. repeat split. intros k Hk. by rewrite Hframe', Hframe.
Qed.

Lemma merge_documents_keeps_first_fields_witness :
  ∃ d d' : gmap string pyval,
    PyDict fragment_a = PyDict d
    ∧ PyDict (<["messages" := PyList [PyStr "a"; PyStr "b"; PyStr "c"]]>
                fragment_a) = PyDict d'
    ∧ ∀ k, k ≠ "messages" → d' !! k = d !! k.
Proof.
  apply (merge_documents_keeps_first_fields
           (PyDict fragment_a) (PyDict fragment_bc) []).
  vm_compute. reflexivity.
Defined.

Lemma merge_rest_missing_messages
    (before : list (gmap string pyval)) (bad : gmap string pyval)
    (after : list pyval) :
  bad !! "messages" = None →
  ∀ d : gmap string pyval,
    messages_well_typed d →
    Forall messages_well_typed before →
    merge_rest (PyDict d) ((PyDict <$> before) ++ PyDict bad :: after)
    = inl (KeyError (PyStr "messages")).
Proof.
  intros Hbad.
  induction before as [|data before IH]; intros d Hd Hbefore; simpl.
  - unfold extend_messages. run.
    destruct (d !! "messages") as [v|] eqn:Hv; [|done].
    destruct (Hd v Hv) as [ms ->]. by rewrite Hbad.
  - apply Forall_cons in Hbefore as [Hdata Hbefore].
    unfold extend_messages. run.
    destruct (d !! "messages") as [v|] eqn:Hv; [|done].
    destruct (Hd v Hv) as [ms ->].
    destruct (data !! "messages") as [w|] eqn:Hw; [|done].
    destruct (Hdata w Hw) as [more ->]. simpl.
    apply IH; [|done].
    intros v. rewrite lookup_insert_eq. intros [= <-]. eauto.
Qed.

(** C8: when the fragments are objects whose messages, where present,
    are lists, a fragment after the first that has no ["messages"] field
    makes the merge raise [KeyError] for ["messages"], whatever follows
    it. *)
Theorem merge_documents_missing_messages
    (first : gmap string pyval) (before : list (gmap string pyval))
    (bad : gmap string pyval) (after : list pyval) :
  Forall messages_well_typed (first :: before) →
  bad !! "messages" = None →
  merge_documents
    (PyDict first :: (PyDict <$> before) ++ PyDict bad :: after)
  = inl (KeyError (PyStr "messages")).
Proof.
  intros Hall Hbad. apply Forall_cons in Hall as [Hfirst Hbefore].
  simpl. by apply merge_rest_missing_messages.
Qed.

Lemma merge_documents_missing_messages_witness :
  merge_documents
    (PyDict fragment_a :: (PyDict <$> [fragment_bc])
       ++ PyDict fragment_without_messages :: [PyDict fragment_bc])
  = inl (KeyError (PyStr "messages")).
Proof.
  apply (merge_documents_missing_messages
           fragment_a [fragment_bc] fragment_without_messages).
  - repeat constructor; intros v; vm_compute; intros [= <-]; eauto.
  - reflexivity.
Defined.

(** ** The written date *)

Section Dates.
(** Checked by running through the range. *)
Lemma zero_pad_2_digits n : 0 ≤ n < 100 → digits 2 (zero_pad 2 n) = true.
Proof.
  intros Hn.
  assert (Hall : forallb (fun n => digits 2 (zero_pad 2 n)) (seqZ 0 100)
                 = true) by (vm_compute; reflexivity).
  rewrite forallb_forall in Hall. apply Hall.
  apply list_elem_of_In, elem_of_seqZ. lia.
Qed.

Lemma year_digits n : 1000 ≤ n < 10000 → digits 4 (zero_pad 1 n) = true.
Proof.
  intros Hn.
  assert (Hall : forallb (fun n => digits 4 (zero_pad 1 n)) (seqZ 1000 9000)
                 = true) by (vm_compute; reflexivity).
  rewrite forallb_forall in Hall. apply Hall.
  apply list_elem_of_In, elem_of_seqZ. lia.
Qed.

Lemma month_day_bounds n leapyear :
  0 ≤ n ≤ 364 →
  1 ≤ (month_day n leapyear).1 ≤ 12 ∧ 1 ≤ (month_day n leapyear).2 ≤ 31.
Proof.
  intros Hn.
  assert (Hall : forallb (fun n => month_day_ok n true && month_day_ok n false)
                   (seqZ 0 365) = true) by (vm_compute; reflexivity).
  rewrite forallb_forall in Hall.
  specialize (Hall n). unfold month_day_ok in Hall.
  destruct leapyear, (month_day n true), (month_day n false); simpl;
    (lapply Hall; [|apply list_elem_of_In, elem_of_seqZ; lia]); lia.
Qed.

Lemma ord2ymd_month_day n :
  1 ≤ (ord2ymd n).1.2 ≤ 12 ∧ 1 ≤ (ord2ymd n).2 ≤ 31.
Proof.
  unfold ord2ymd. cbv zeta.
  set (c := ((n - 1) mod 146097 mod 36524) mod 1461).
  destruct ((c / 365 =? 4) || _) eqn:Hlast; simpl; [lia|].
  set (leapyear := _ && _).
  assert (Hc : 0 ≤ c mod 365 ≤ 364) by (Z.div_mod_to_equations; lia).
  pose proof (month_day_bounds (c mod 365) leapyear Hc) as Hmd.
  destruct (month_day (c mod 365) leapyear) as [m d]. simpl in *. lia.
Qed.

(** The years 1 to 9999 are the ordinals 1 to 3652059. *)
Lemma ord2ymd_year n :
  1 ≤ n ≤ 3652059 ↔ 1 ≤ (ord2ymd n).1.1 ≤ 9999.
Proof.
  unfold ord2ymd. cbv zeta.
  set (a := (n - 1) mod 146097).
  set (b := a mod 36524).
  set (c := b mod 1461).
  destruct ((c / 365 =? 4) || (a / 36524 =? 4)) eqn:Hlast.
  - apply orb_true_iff in Hlast. rewrite !Z.eqb_eq in Hlast. simpl.
    subst c b a. Z.div_mod_to_equations. lia.
  - apply orb_false_iff in Hlast. rewrite !Z.eqb_neq in Hlast.
    destruct (month_day _ _) as [m d]. simpl.
    subst c b a. Z.div_mod_to_equations. lia.
Qed.

Lemma gmtime_time_of_day t :
  0 ≤ hour (gmtime t) ≤ 23 ∧ 0 ≤ minute (gmtime t) ≤ 59
  ∧ 0 ≤ second (gmtime t) ≤ 59.
Proof.
  unfold gmtime. destruct (ord2ymd _) as [[y m] d]. simpl.
  Z.div_mod_to_equations. lia.
Qed.

Lemma gmtime_date t :
  1 ≤ month (gmtime t) ≤ 12 ∧ 1 ≤ day (gmtime t) ≤ 31.
Proof.
  unfold gmtime.
  pose proof (ord2ymd_month_day (t / 86400 + EPOCH_ORDINAL)) as H.
  destruct (ord2ymd _) as [[y m] d]. exact H.
Qed.

Lemma gmtime_year t :
  MIN_TIMESTAMP ≤ t ≤ MAX_TIMESTAMP ↔ MINYEAR ≤ year (gmtime t) ≤ MAXYEAR.
Proof.
  unfold gmtime, MINYEAR, MAXYEAR.
  pose proof (ord2ymd_year (t / 86400 + EPOCH_ORDINAL)) as H.
  destruct (ord2ymd _) as [[y m] d]. simpl in *. rewrite <- H.
  unfold MIN_TIMESTAMP, MAX_TIMESTAMP, EPOCH_ORDINAL.
  Z.div_mod_to_equations. lia.
Qed.

Lemma years_fit_time_t t :
  MIN_TIMESTAMP ≤ t ≤ MAX_TIMESTAMP →
  (TIME_T_MIN <=? t) && (t <=? TIME_T_MAX) = true.
Proof.
  unfold MIN_TIMESTAMP, MAX_TIMESTAMP, TIME_T_MIN, TIME_T_MAX. intros Ht.
  apply andb_true_iff. rewrite !Z.leb_le. lia.
Qed.

Lemma years_fit_int y :
  MINYEAR ≤ y ≤ MAXYEAR →
  (INT_MIN <=? y - TM_YEAR_BASE) && (y - TM_YEAR_BASE <=? INT_MAX) = true.
Proof.
  unfold MINYEAR, MAXYEAR, INT_MIN, INT_MAX, TM_YEAR_BASE. intros Hy.
  apply andb_true_iff. rewrite !Z.leb_le. lia.
Qed.

(** [utc_fromtimestamp] accepts exactly the seconds of the years 1 to
    9999. *)
Lemma utc_fromtimestamp_range t :
  MIN_TIMESTAMP ≤ t ≤ MAX_TIMESTAMP ↔ utc_fromtimestamp t = inr (gmtime t).
Proof.
  unfold utc_fromtimestamp. split.
  - intros Ht. rewrite (years_fit_time_t t Ht). simpl.
    apply gmtime_year in Ht. rewrite (years_fit_int _ Ht). simpl.
    destruct Ht as [Hlo Hhi]. apply Z.leb_le in Hlo, Hhi.
    by rewrite Hlo, Hhi.
  - destruct (negb _); [discriminate|].
    destruct (negb _); [discriminate|].
    destruct (_ && _) eqn:Hy; [|discriminate].
    intros _. apply gmtime_year.
    apply andb_true_iff in Hy. by rewrite !Z.leb_le in Hy.
Qed.

Lemma utc_fromtimestamp_inr t dt :
  utc_fromtimestamp t = inr dt →
  dt = gmtime t ∧ MIN_TIMESTAMP ≤ t ≤ MAX_TIMESTAMP.
Proof.
  intros H. assert (Hdt : dt = gmtime t).
  { unfold utc_fromtimestamp in H.
    destruct (negb _); [discriminate|].
    destruct (negb _); [discriminate|].
    destruct (_ && _); [|discriminate]. by injection H. }
  subst dt. split; [done|]. by apply utc_fromtimestamp_range.
Qed.

(** Outside those years it raises. *)
Lemma utc_fromtimestamp_inl t :
  ¬ (MIN_TIMESTAMP ≤ t ≤ MAX_TIMESTAMP) → ∃ e, utc_fromtimestamp t = inl e.
Proof.
  intros Ht. destruct (utc_fromtimestamp t) as [e|dt] eqn:H; [by exists e|].
  by apply utc_fromtimestamp_inr in H as [_ H].
Qed.
End Dates.

(** ** The calendar *)

Lemma month_day_inverse n leapyear m d :
  0 ≤ n ≤ 364 →
  month_day n leapyear = (m, d) →
  table DAYS_BEFORE_MONTH m + Z_of_bool ((2 <? m) && leapyear) + d = n + 1
  ∧ 1 ≤ m ≤ 12
  ∧ 1 ≤ d ≤ (if (m =? 2) && leapyear then 29 else table DAYS_IN_MONTH m).
Proof.
  intros Hn Hmd.
  assert (Hall : forallb (fun n => month_day_inverse_ok n true
                                   && month_day_inverse_ok n false)
                   (seqZ 0 365) = true) by (vm_compute; reflexivity).
  rewrite forallb_forall in Hall.
  specialize (Hall n). lapply Hall;
    [|apply list_elem_of_In, elem_of_seqZ; lia].
  unfold month_day_inverse_ok.
  destruct leapyear; rewrite Hmd; rewrite !andb_true_iff;
    rewrite !Z.leb_le, !Z.eqb_eq; tauto.
Qed.

(** The year [y + 1] written in its cycles of 400, 100, 4 and 1 years. *)
Lemma calendar_cycles n400 n100 n4 n1 :
  0 ≤ n100 ≤ 3 → 0 ≤ n4 ≤ 24 → 0 ≤ n1 ≤ 3 →
  let year := n400 * 400 + 1 + n100 * 100 + n4 * 4 + n1 in
  days_before_year year
  = n400 * 146097 + n100 * 36524 + n4 * 1461 + n1 * 365
  ∧ is_leap year = (n1 =? 3) && (negb (n4 =? 24) || (n100 =? 3)).
Proof.
  intros H100 H4 H1 year. split.
  - unfold days_before_year, year. Z.div_mod_to_equations. lia.
  - unfold is_leap, year.
    destruct (n1 =? 3) eqn:E1; destruct (n4 =? 24) eqn:E4;
      destruct (n100 =? 3) eqn:E100; simpl;
      rewrite ?Z.eqb_eq, ?Z.eqb_neq in E1, E4, E100;
      repeat match goal with
      | |- context [?a mod ?b =? 0] =>
          let E := fresh in destruct (a mod b =? 0) eqn:E;
          rewrite ?Z.eqb_eq, ?Z.eqb_neq in E
      end; simpl; try reflexivity; exfalso;
      Z.div_mod_to_equations; lia.
Qed.

(** The last day of a cycle of 4 or of 400 years is the 31st of December
    of a leap year. *)
Lemma calendar_leap_day n400 n100 n4 n1 :
  0 ≤ n100 ≤ 4 → 0 ≤ n4 ≤ 24 → 0 ≤ n1 ≤ 4 →
  (n100 = 4 ∧ n4 = 0 ∧ n1 = 0) ∨ (n100 ≤ 3 ∧ n4 ≤ 23 ∧ n1 = 4) →
  let year := n400 * 400 + 1 + n100 * 100 + n4 * 4 + n1 - 1 in
  days_before_year year + 365
  = n400 * 146097 + n100 * 36524 + n4 * 1461 + n1 * 365
  ∧ is_leap year = true.
Proof.
  intros H100 H4 H1 Hcase year. split.
  - unfold days_before_year, year. Z.div_mod_to_equations. lia.
  - unfold is_leap, year.
    repeat match goal with
    | |- context [?a mod ?b =? 0] =>
        let E := fresh in destruct (a mod b =? 0) eqn:E;
        rewrite ?Z.eqb_eq, ?Z.eqb_neq in E
    end; simpl; try reflexivity; exfalso;
    Z.div_mod_to_equations; lia.
Qed.

Lemma ymd2ord_ord2ymd n y m d :
  ord2ymd n = (y, m, d) →
  ymd2ord y m d = n
  ∧ 1 ≤ m ≤ 12 ∧ 1 ≤ d ≤ days_in_month y m.
Proof.
  unfold ord2ymd. cbv zeta.
  set (a := (n - 1) mod 146097).
  set (b := a mod 36524).
  set (c := b mod 1461).
  set (n400 := (n - 1) / 146097).
  set (n100 := a / 36524).
  set (n4 := b / 1461).
  set (n1 := c / 365).
  assert (Hn : n - 1 = n400 * 146097 + n100 * 36524 + n4 * 1461
                       + n1 * 365 + c mod 365
               ∧ 0 ≤ n100 ≤ 4 ∧ 0 ≤ n4 ≤ 24 ∧ 0 ≤ n1 ≤ 4
               ∧ 0 ≤ c mod 365 ≤ 364
               ∧ (n100 = 4 → n4 = 0 ∧ n1 = 0 ∧ c mod 365 = 0)
               ∧ (n1 = 4 → n4 ≤ 23 ∧ c mod 365 = 0)).
  { subst n1 n4 n100 n400 c b a. Z.div_mod_to_equations. lia. }
  destruct Hn as (Hn & H100 & H4 & H1 & Hr & Hlast100 & Hlast1).
  destruct ((n1 =? 4) || (n100 =? 4)) eqn:Hlast.
  - intros [= <- <- <-].
    apply orb_true_iff in Hlast. rewrite !Z.eqb_eq in Hlast.
    destruct (calendar_leap_day n400 n100 n4 n1) as [Hdays Hleap];
      [lia..|].
    unfold ymd2ord, days_before_month, days_in_month.
    rewrite Hleap. simpl. unfold table. simpl. lia.
  - apply orb_false_iff in Hlast. rewrite !Z.eqb_neq in Hlast.
    destruct (calendar_cycles n400 n100 n4 n1) as [Hdays Hleap]; [lia..|].
    cbv zeta in Hdays, Hleap.
    destruct (month_day (c mod 365) _) as [m' d'] eqn:Hmd.
    intros [= <- <- <-].
    apply month_day_inverse in Hmd as (Hsum & Hm & Hd); [|lia].
    unfold ymd2ord, days_before_month, days_in_month.
    rewrite Hleap, Hdays. lia.
Qed.

Lemma gmtime_inverse t : timestamp_of (gmtime t) = t.
Proof.
  unfold timestamp_of, gmtime.
  destruct (ord2ymd (t / 86400 + EPOCH_ORDINAL)) as [[y m] d] eqn:Hymd.
  apply ymd2ord_ord2ymd in Hymd as (Hord & _ & _). simpl.
  rewrite Hord. Z.div_mod_to_equations. lia.
Qed.

Lemma zero_pad_2_number n :
  0 ≤ n < 100 → number (list_ascii_of_string (zero_pad 2 n)) = n.
Proof.
  intros Hn.
  assert (Hall : forallb
            (fun n => number (list_ascii_of_string (zero_pad 2 n)) =? n)
            (seqZ 0 100) = true) by (vm_compute; reflexivity).
  rewrite forallb_forall in Hall. apply Z.eqb_eq, Hall.
  apply list_elem_of_In, elem_of_seqZ. lia.
Qed.

Lemma year_number n :
  1000 ≤ n < 10000 → number (list_ascii_of_string (zero_pad 1 n)) = n.
Proof.
  intros Hn.
  assert (Hall : forallb
            (fun n => number (list_ascii_of_string (zero_pad 1 n)) =? n)
            (seqZ 1000 9000) = true) by (vm_compute; reflexivity).
  rewrite forallb_forall in Hall. apply Z.eqb_eq, Hall.
  apply list_elem_of_In, elem_of_seqZ. lia.
Qed.

(** The years 1000 to 9999 are the ordinals 364878 to 3652059. *)
Lemma ord2ymd_year_from_1000 n :
  364878 ≤ n ≤ 3652059 → 1000 ≤ (ord2ymd n).1.1 ≤ 9999.
Proof.
  unfold ord2ymd. cbv zeta.
  set (a := (n - 1) mod 146097).
  set (b := a mod 36524).
  set (c := b mod 1461).
  destruct ((c / 365 =? 4) || (a / 36524 =? 4)) eqn:Hlast.
  - apply orb_true_iff in Hlast. rewrite !Z.eqb_eq in Hlast. simpl.
    subst c b a. Z.div_mod_to_equations. lia.
  - apply orb_false_iff in Hlast. rewrite !Z.eqb_neq in Hlast.
    destruct (month_day _ _) as [m d]. simpl.
    subst c b a. Z.div_mod_to_equations. lia.
Qed.

Lemma gmtime_year_from_1000 t :
  YEAR_1000_TIMESTAMP ≤ t ≤ MAX_TIMESTAMP → 1000 ≤ year (gmtime t) ≤ 9999.
Proof.
  unfold gmtime, YEAR_1000_TIMESTAMP, MAX_TIMESTAMP. intros Ht.
  pose proof (ord2ymd_year_from_1000 (t / 86400 + EPOCH_ORDINAL)) as H.
  destruct (ord2ymd _) as [[y m] d]. simpl in *. apply H.
  unfold EPOCH_ORDINAL. Z.div_mod_to_equations. lia.
Qed.

Lemma digits_2_inv s :
  digits 2 s = true →
  ∃ a b, s = String a (String b EmptyString)
         ∧ is_digit a = true ∧ is_digit b = true.
Proof.
  unfold digits.
  destruct s as [|a [|b [|c s]]]; simpl; try discriminate.
  rewrite !andb_true_iff. intros (Ha & Hb & _). by exists a, b.
Qed.

Lemma digits_4_inv s :
  digits 4 s = true →
  ∃ a b c d, s = String a (String b (String c (String d EmptyString)))
             ∧ is_digit a = true ∧ is_digit b = true
             ∧ is_digit c = true ∧ is_digit d = true.
Proof.
  unfold digits.
  destruct s as [|a [|b [|c [|d [|e s]]]]]; simpl; try discriminate.
  rewrite !andb_true_iff. intros (Ha & Hb & Hc & Hd & _). by exists a, b, c, d.
Qed.

(** A date of the years 1000 to 9999 whose other fields are in their
    ranges is written in the pattern. *)
Lemma formatted_date_pattern dt :
  1000 ≤ year dt ≤ 9999 → 1 ≤ month dt ≤ 12 → 1 ≤ day dt ≤ 31 →
  0 ≤ hour dt ≤ 23 → 0 ≤ minute dt ≤ 59 → 0 ≤ second dt ≤ 59 →
  exif_date_pattern (formatted_date dt) = true.
Proof.
  intros Hy Hm Hd Hh Hn Hs.
  destruct (digits_4_inv (zero_pad 1 (year dt)))
    as (y1 & y2 & y3 & y4 & Ey & ? & ? & ? & ?);
    [apply year_digits; lia|].
  destruct (digits_2_inv (zero_pad 2 (month dt))) as (m1 & m2 & Em & ? & ?);
    [apply zero_pad_2_digits; lia|].
  destruct (digits_2_inv (zero_pad 2 (day dt))) as (d1 & d2 & Ed & ? & ?);
    [apply zero_pad_2_digits; lia|].
  destruct (digits_2_inv (zero_pad 2 (hour dt))) as (h1 & h2 & Eh & ? & ?);
    [apply zero_pad_2_digits; lia|].
  destruct (digits_2_inv (zero_pad 2 (minute dt))) as (n1 & n2 & En & ? & ?);
    [apply zero_pad_2_digits; lia|].
  destruct (digits_2_inv (zero_pad 2 (second dt))) as (s1 & s2 & Es & ? & ?);
    [apply zero_pad_2_digits; lia|].
  unfold formatted_date. cbn [strftime Ascii.eqb Bool.eqb directive].
  rewrite Ey, Em, Ed, Eh, En, Es.
  unfold exif_date_pattern. simpl.
  repeat match goal with H : is_digit _ = true |- _ => rewrite H; clear H end.
  reflexivity.
Qed.

(** Such a date is read back from its text, field by field. *)
Lemma read_exif_date_formatted dt :
  1000 ≤ year dt ≤ 9999 → 1 ≤ month dt ≤ 12 → 1 ≤ day dt ≤ 31 →
  0 ≤ hour dt ≤ 23 → 0 ≤ minute dt ≤ 59 → 0 ≤ second dt ≤ 59 →
  read_exif_date (formatted_date dt) = Some dt.
Proof.
  intros Hy Hm Hd Hh Hn Hs. unfold read_exif_date.
  rewrite formatted_date_pattern by done.
  pose proof (year_number (year dt)) as Ny.
  pose proof (zero_pad_2_number (month dt)) as Nm.
  pose proof (zero_pad_2_number (day dt)) as Nd.
  pose proof (zero_pad_2_number (hour dt)) as Nh.
  pose proof (zero_pad_2_number (minute dt)) as Nn.
  pose proof (zero_pad_2_number (second dt)) as Ns.
  destruct (digits_4_inv (zero_pad 1 (year dt)))
    as (y1 & y2 & y3 & y4 & Ey & _); [apply year_digits; lia|].
  destruct (digits_2_inv (zero_pad 2 (month dt))) as (m1 & m2 & Em & _);
    [apply zero_pad_2_digits; lia|].
  destruct (digits_2_inv (zero_pad 2 (day dt))) as (d1 & d2 & Ed & _);
    [apply zero_pad_2_digits; lia|].
  destruct (digits_2_inv (zero_pad 2 (hour dt))) as (h1 & h2 & Eh & _);
    [apply zero_pad_2_digits; lia|].
  destruct (digits_2_inv (zero_pad 2 (minute dt))) as (n1 & n2 & En & _);
    [apply zero_pad_2_digits; lia|].
  destruct (digits_2_inv (zero_pad 2 (second dt))) as (s1 & s2 & Es & _);
    [apply zero_pad_2_digits; lia|].
  unfold formatted_date. cbn [strftime Ascii.eqb Bool.eqb directive].
  rewrite Ey, Em, Ed, Eh, En, Es in *.
  cbv [list_ascii_of_string String.append] in *.
  rewrite Ny, Nm, Nd, Nh, Nn, Ns by lia.
  by destruct dt.
Qed.

(** The calendar at some known instants: the epoch, both sides of a
    leap day, the end of February in a century year that is no leap year,
    the first and last second of the years the conversion accepts, and
    the three ways it refuses a timestamp. *)
Example written_value_known_dates :
  written_value 0 = inr "1970:01:01 00:00:00"%string
  ∧ written_value 951868799 = inr "2000:02:29 23:59:59"%string
  ∧ written_value 951868800 = inr "2000:03:01 00:00:00"%string
  ∧ written_value 4107542399 = inr "2100:02:28 23:59:59"%string
  ∧ written_value 4107542400 = inr "2100:03:01 00:00:00"%string
  ∧ written_value (-1) = inr "1969:12:31 23:59:59"%string
  ∧ written_value MIN_TIMESTAMP = inr "1:01:01 00:00:00"%string
  ∧ written_value MAX_TIMESTAMP = inr "9999:12:31 23:59:59"%string
  ∧ written_value (MAX_TIMESTAMP + 1) = inl ValueError
  ∧ written_value (MIN_TIMESTAMP - 1) = inl ValueError
  ∧ written_value (10 ^ 17) = inl (Raised "OSError")
  ∧ written_value (2 ^ 63) = inl (Raised "OverflowError").
Proof. repeat split; vm_compute; reflexivity. Qed.

(** C7, as the code has it: every timestamp of the years 1000 to 9999 is
    written as a text of nineteen characters in the pattern
    YYYY:MM:DD HH:MM:SS whose six numbers are the fields of the UTC date
    of the timestamp, so that counting the seconds of that date from the
    epoch gives the timestamp again; 1700000000 is written as
    2023:11:14 22:13:20. *)
Theorem written_value_exif_format :
  (∀ t, YEAR_1000_TIMESTAMP ≤ t ≤ MAX_TIMESTAMP →
        ∃ s, written_value t = inr s
             ∧ exif_date_pattern s = true
             ∧ read_exif_date s = Some (gmtime t)
             ∧ timestamp_of (gmtime t) = t)
  ∧ written_value 1700000000 = inr "2023:11:14 22:13:20"%string.
Proof.
  split; [|reflexivity].
  intros t Ht. exists (formatted_date (gmtime t)).
  destruct (gmtime_time_of_day t) as (? & ? & ?).
  destruct (gmtime_date t).
  pose proof (gmtime_year_from_1000 t Ht).
  assert (Hrange : MIN_TIMESTAMP ≤ t ≤ MAX_TIMESTAMP)
    by (unfold YEAR_1000_TIMESTAMP, MIN_TIMESTAMP in *; lia).
  repeat split.
  - unfold written_value.
    by rewrite (proj1 (utc_fromtimestamp_range t) Hrange).
  - by apply formatted_date_pattern.
  - by apply read_exif_date_formatted.
  - apply gmtime_inverse.
Qed.

Lemma written_value_exif_format_witness :
  ∃ s, written_value 1700000000 = inr s
       ∧ exif_date_pattern s = true
       ∧ read_exif_date s = Some (gmtime 1700000000)
       ∧ timestamp_of (gmtime 1700000000) = 1700000000.
Proof.
  apply (proj1 written_value_exif_format 1700000000).
  unfold YEAR_1000_TIMESTAMP, MAX_TIMESTAMP. lia.
Defined.

(** C7, as stated, fails before the year 1000: the year is written with
    the digits it has, so the first second of the year 1 gives a text of
    sixteen characters, and the last second of the year 999 one of
    eighteen; past the year 9999 the conversion raises and no text is
    written. *)
Lemma written_value_before_year_1000 :
  written_value (-62135596800) = inr "1:01:01 00:00:00"%string
  ∧ exif_date_pattern "1:01:01 00:00:00" = false
  ∧ String.length "1:01:01 00:00:00" = 16%nat
  ∧ written_value (-30610224001) = inr "999:12:31 23:59:59"%string
  ∧ exif_date_pattern "999:12:31 23:59:59" = false
  ∧ written_value 253402300800 = inl ValueError.
Proof. repeat split; vm_compute; reflexivity. Qed.

(** ** The metadata writer *)

Section Endswith.
Open Scope string_scope.

Lemma string_length_app (a b : string) :
  String.length (a ++ b) = (String.length a + String.length b)%nat.
Proof. induction a as [|c a IH]; simpl; [done|by rewrite IH]. Qed.

Lemma substring_whole (x : string) : substring 0 (String.length x) x = x.
Proof. induction x as [|c x IH]; simpl; [done|by rewrite IH]. Qed.

Lemma substring_skip (stem x : string) (k m : nat) :
  substring (String.length stem + k) m (stem ++ x) = substring k m x.
Proof. induction stem as [|c stem IH]; simpl; [done|apply IH]. Qed.

Lemma substring_split (s : string) : ∀ k : nat,
  (k ≤ String.length s)%nat →
  s = substring 0 k s ++ substring k (String.length s - k) s.
Proof.
  induction s as [|c s IH]; intros [|k] Hk; simpl in *; try lia.
  - done.
  - by rewrite substring_whole.
  - change (String c s
            = String c (substring 0 k s
                        ++ substring k (String.length s - k) s)).
    f_equal. apply IH. lia.
Qed.

(** Whether [stem ++ x] ends with a suffix no longer than [x] is
    decided by [x]. *)
Lemma endswith_app (stem x suffix : string) :
  (String.length suffix ≤ String.length x)%nat →
  endswith (stem ++ x) suffix = endswith x suffix.
Proof.
  intros Hlen. unfold endswith. rewrite string_length_app.
  replace (String.length stem + String.length x - String.length suffix)%nat
    with (String.length stem
          + (String.length x - String.length suffix))%nat by lia.
  rewrite substring_skip. f_equal.
  apply Nat.leb_le in Hlen as Hb. rewrite Hb.
  apply Nat.leb_le. lia.
Qed.

(** [endswith] is the suffix relation on the bytes, case and all. *)
Lemma endswith_iff (s suffix : string) :
  endswith s suffix = true ↔ ∃ stem, s = stem ++ suffix.
Proof.
  split.
  - unfold endswith. rewrite andb_true_iff, Nat.leb_le, String.eqb_eq.
    intros [Hlen Hsub].
    exists (substring 0 (String.length s - String.length suffix) s).
    pose proof (substring_split s
                  (String.length s - String.length suffix)) as Hs.
    replace (String.length s - (String.length s - String.length suffix))%nat
      with (String.length suffix) in Hs by lia.
    rewrite Hsub in Hs. apply Hs. lia.
  - intros [stem ->]. rewrite endswith_app by done.
    unfold endswith. rewrite Nat.leb_refl, Nat.sub_diag, substring_whole.
    apply String.eqb_refl.
Qed.
End Endswith.

(** What [set_date_time_original] changes: the one tag of the Exif
    table, and nothing else. *)
Lemma set_date_time_original_spec exif_dict value exif_dict' :
  set_date_time_original exif_dict value = inr exif_dict' →
  ∃ tags,
    exif_dict !! "Exif" = Some (Ifd tags)
    ∧ exif_dict' !! "Exif"
      = Some (Ifd (<[DateTimeOriginal := ExifStr value]> tags))
    ∧ ∀ name, name ≠ "Exif" → exif_dict' !! name = exif_dict !! name.
Proof.
  unfold set_date_time_original.
  destruct (exif_dict !! "Exif") as [[tags|]|]; try discriminate.
  intros [= <-]. exists tags. split; [done|]. split.
  - apply lookup_insert_eq.
  - intros name Hne. by apply lookup_insert_ne.
Qed.

(** A timestamp outside the years 1 to 9999 stops [main] at the
    conversion: it raises, the writer is not called and nothing is read
    or written. *)
Lemma write_photo_out_of_range lib uri t w :
  ¬ (MIN_TIMESTAMP ≤ t ≤ MAX_TIMESTAMP) →
  ∃ e, utc_fromtimestamp t = inl e ∧ write_photo lib uri t w = (inl e, w).
Proof.
  intros Ht. destruct (utc_fromtimestamp_inl t Ht) as [e He].
  exists e. split; [done|]. unfold write_photo. by rewrite He.
Qed.

(** The guard of line 194. *)
Lemma modify_date_taken_guard lib photo_path new_date w :
  endswith photo_path ".jpg" = false →
  modify_date_taken lib photo_path new_date w = (inr (), w).
Proof. intros H. unfold modify_date_taken. by rewrite H. Qed.

(** C9: for a path that does not end in [.jpg], such as one ending in
    [.png], [modify_date_taken] returns normally and leaves the files and
    the record of reads and writes as they were. *)
Theorem modify_date_taken_skips_other_extensions
    (lib : Piexif) (photo_path : string) (new_date : DateTime) (w : world) :
  endswith photo_path ".jpg" = false →
  modify_date_taken lib photo_path new_date w = (inr (), w).
Proof. apply modify_date_taken_guard. Qed.

Lemma modify_date_taken_skips_other_extensions_witness :
  modify_date_taken piexif_without_exif "photos/a.png" noon_2023
    (one_file "photos/a.png")
  = (inr (), one_file "photos/a.png").
Proof.
  apply (modify_date_taken_skips_other_extensions
           piexif_without_exif "photos/a.png").
  reflexivity.
Defined.

(** C10: the check is the exact suffix [.jpg]: a path ending in [.JPG],
    [.Jpg] or [.jpeg] is skipped, nothing read, nothing written, no
    error, whatever the file holds; a path ending in [.jpg] is not
    skipped, its file is read. *)
Theorem modify_date_taken_suffix_is_exact
    (lib : Piexif) (stem : string) (new_date : DateTime) (w : world) :
  (∀ suffix, suffix ∈ [".JPG"; ".Jpg"; ".jpeg"]%string →
     modify_date_taken lib (stem ++ suffix)%string new_date w = (inr (), w))
  ∧ (∃ later,
       io_log (modify_date_taken lib (stem ++ ".jpg")%string new_date w).2
       = later ++ FileRead (stem ++ ".jpg")%string :: io_log w).
Proof.
  split.
  - intros suffix Hin. apply modify_date_taken_guard.
    rewrite !elem_of_cons, elem_of_nil in Hin.
    destruct Hin as [->|[->|[->|[]]]]; by rewrite endswith_app by (simpl; lia).
  - unfold modify_date_taken.
    rewrite (proj2 (endswith_iff _ _)) by eauto. simpl.
    destruct (files w !! _) as [image|]; [|by exists []].
    destruct (piexif_load lib image) as [|exif_dict]; [by exists []|].
    destruct (set_date_time_original _ _) as [|exif_dict'];
      [by exists []|].
    destruct (piexif_dump lib exif_dict') as [|exif_bytes]; [by exists []|].
    destruct (piexif_insert lib exif_bytes image) as [|image'].
    + by exists [FileRead (stem ++ ".jpg")%string].
    + by exists [FileWrite (stem ++ ".jpg")%string;
                  FileRead (stem ++ ".jpg")%string].
Qed.

Lemma modify_date_taken_suffix_is_exact_witness :
  modify_date_taken piexif_without_exif "photos/a.JPG" noon_2023
    (one_file "photos/a.JPG")
  = (inr (), one_file "photos/a.JPG").
Proof.
  apply (proj1 (modify_date_taken_suffix_is_exact
                  piexif_without_exif "photos/a" noon_2023
                  (one_file "photos/a.JPG")) ".JPG"%string).
  apply list_elem_of_here.
Defined.

(** * Further properties *)

(** ** Fragments and lists of fragments *)

(** X1: when a level of the metadata path is missing, or the first
    block of [exif_data] has no [taken_timestamp] or holds [null] there
    (whatever later blocks hold), the record carries the
    creation_timestamp, and a fragment without one raises [KeyError] for
    ["creation_timestamp"]. *)
Theorem from_json_structure_uses_creation_timestamp
    (s : gmap string pyval) (u : pyval) :
  s !! "uri" = Some u →
  falls_back s →
  from_json_structure (PyDict s) =
    match s !! "creation_timestamp" with
    | Some created => inr (mkPhoto u created)
    | None => inl (KeyError (PyStr "creation_timestamp"))
    end.
Proof. apply from_json_structure_falls_back. Qed.

(** A taken-timestamp in the second block only is not used. *)
Lemma from_json_structure_uses_creation_timestamp_witness :
  from_json_structure
    (PyDict {[ "uri" := PyStr "photos/a.jpg";
               "creation_timestamp" := PyInt 1000;
               "media_metadata" :=
                 PyDict {[ "photo_metadata" :=
                   PyDict {[ "exif_data" :=
                     PyList [PyDict {[ "iso" := PyInt 100 ]};
                             PyDict {[ "taken_timestamp" := PyInt 2000 ]}]
                   ]} ]} ]})
  = inr (mkPhoto (PyStr "photos/a.jpg") (PyInt 1000)).
Proof.
  refine (eq_trans (from_json_structure_uses_creation_timestamp
           {[ "uri" := PyStr "photos/a.jpg";
              "creation_timestamp" := PyInt 1000;
              "media_metadata" :=
                PyDict {[ "photo_metadata" :=
                  PyDict {[ "exif_data" :=
                    PyList [PyDict {[ "iso" := PyInt 100 ]};
                            PyDict {[ "taken_timestamp" := PyInt 2000 ]}]
                  ]} ]} ]}
           (PyStr "photos/a.jpg") _ _) _).
  - reflexivity.
  - eapply (no_taken_in_first_block _ _ _ {[ "iso" := PyInt 100 ]});
      reflexivity.
  - reflexivity.
Defined.

(** X2: on a fragment whose metadata path has the export's shape, the
    only exceptions are the two missing-field errors, [KeyError] for
    ["uri"] and for ["creation_timestamp"]; otherwise a record comes
    back. *)
Theorem from_json_structure_only_missing_fields (s : gmap string pyval) :
  well_shaped s →
  (∃ p, from_json_structure (PyDict s) = inr p)
  ∨ from_json_structure (PyDict s) = inl (KeyError (PyStr "uri"))
  ∨ from_json_structure (PyDict s)
    = inl (KeyError (PyStr "creation_timestamp")).
Proof.
  intros Hs.
  destruct (s !! "uri") as [u|] eqn:Hu.
  2:{ right; left. unfold from_json_structure.
      by rewrite (py_getitem_None _ _ Hu). }
  destruct Hs as [Hfb|mm pm blk later Hmm Hpm Hex].
  - rewrite (from_json_structure_falls_back _ _ Hu Hfb).
    destruct (s !! "creation_timestamp"); eauto.
  - destruct (default PyNone (blk !! "taken_timestamp")) eqn:Ht.
    1:{ rewrite (from_json_structure_falls_back s u Hu);
          [|by eapply no_taken_in_first_block].
        destruct (s !! "creation_timestamp"); eauto. }
    all: left; unfold from_json_structure;
      rewrite (py_getitem_Some _ _ _ Hu); run;
      rewrite Hmm; simpl; rewrite Hpm; simpl; rewrite Hex; simpl;
      rewrite Ht; eauto.
Qed.

Lemma from_json_structure_only_missing_fields_witness :
  (∃ p, from_json_structure (plain_photo "photos/a.jpg" 1000) = inr p)
  ∨ from_json_structure (plain_photo "photos/a.jpg" 1000)
    = inl (KeyError (PyStr "uri"))
  ∨ from_json_structure (plain_photo "photos/a.jpg" 1000)
    = inl (KeyError (PyStr "creation_timestamp")).
Proof.
  apply (from_json_structure_only_missing_fields
           {[ "uri" := PyStr "photos/a.jpg";
              "creation_timestamp" := PyInt 1000 ]}).
  apply shaped_fallback, no_media_metadata. reflexivity.
Defined.

Lemma extract_photos_from_list_cons photo rest :
  extract_photos_from_list (photo :: rest) =
  match from_json_structure photo with
  | inl e => inl e
  | inr p =>
      match extract_photos_from_list rest with
      | inl e => inl e
      | inr photos => inr (p :: photos)
      end
  end.
Proof. reflexivity. Qed.

Lemma extract_photos_from_list_Forall2 photos_data photos :
  extract_photos_from_list photos_data = inr photos
  ↔ Forall2 extracts photos_data photos.
Proof.
  revert photos.
  induction photos_data as [|photo rest IH]; intros photos.
  - split.
    + intros [= <-]. constructor.
    + intros ->%Forall2_nil_inv_l. reflexivity.
  - rewrite extract_photos_from_list_cons. split.
    + destruct (from_json_structure photo) as [|p] eqn:Hp; [discriminate|].
      destruct (extract_photos_from_list rest) as [|ps] eqn:Hps;
        [discriminate|].
      intros [= <-]. constructor; [done|]. by apply IH.
    + intros (p & ps & Hp & Hps & ->)%Forall2_cons_inv_l.
      unfold extracts in Hp. rewrite Hp.
      apply IH in Hps. by rewrite Hps.
Qed.

(** X3: [extract_photos_from_list] returns a list exactly when every
    fragment extracts, and then the records are those of the fragments,
    one for one and in the order of the input. *)
Theorem extract_photos_from_list_pointwise
    (photos_data : list pyval) (photos : list Photo) :
  extract_photos_from_list photos_data = inr photos
  ↔ Forall2 extracts photos_data photos.
Proof. apply extract_photos_from_list_Forall2. Qed.

Lemma extract_photos_from_list_pointwise_witness :
  extract_photos_from_list
    [plain_photo "photos/a.jpg" 1; photo_taken "photos/b.jpg" 2 3]
  = inr [mkPhoto (PyStr "photos/a.jpg") (PyInt 1);
         mkPhoto (PyStr "photos/b.jpg") (PyInt 3)].
Proof.
  apply (proj2 (extract_photos_from_list_pointwise
                  [plain_photo "photos/a.jpg" 1;
                   photo_taken "photos/b.jpg" 2 3] _)).
  repeat constructor.
Defined.

Lemma extract_photos_from_list_app_error good bad rest photos e :
  Forall2 extracts good photos →
  from_json_structure bad = inl e →
  extract_photos_from_list (good ++ bad :: rest) = inl e.
Proof.
  intros Hgood Hbad. induction Hgood as [|photo p good photos Hp _ IH].
  - cbn [app]. rewrite extract_photos_from_list_cons. by rewrite Hbad.
  - cbn [app]. rewrite extract_photos_from_list_cons.
    unfold extracts in Hp. by rewrite Hp, IH.
Qed.

(** X4: the first fragment that fails decides the outcome: its exception
    is raised, whatever comes after it, and no record of the fragments
    before it is returned. *)
Theorem extract_photos_from_list_first_error
    (good : list pyval) (bad : pyval) (rest : list pyval)
    (photos : list Photo) (e : pyerr) :
  Forall2 extracts good photos →
  from_json_structure bad = inl e →
  extract_photos_from_list (good ++ bad :: rest) = inl e.
Proof. apply extract_photos_from_list_app_error. Qed.

Lemma extract_photos_from_list_first_error_witness :
  extract_photos_from_list
    ([plain_photo "photos/a.jpg" 1] ++ fragment_empty_exif
       :: [plain_photo "photos/b.jpg" 2])
  = inl IndexError.
Proof.
  apply (extract_photos_from_list_first_error
           [plain_photo "photos/a.jpg" 1] fragment_empty_exif
           [plain_photo "photos/b.jpg" 2]
           [mkPhoto (PyStr "photos/a.jpg") (PyInt 1)]).
  - repeat constructor.
  - reflexivity.
Defined.

(** ** Messages *)

Lemma extend_photos_Forall2 photos_data : ∀ acc photos,
  Forall2 extracts photos_data photos →
  extend_photos photos_data acc = inr (acc ++ photos).
Proof.
  induction photos_data as [|photo rest IH]; intros acc photos Hph.
  - apply Forall2_nil_inv_l in Hph as ->. simpl. by rewrite app_nil_r.
  - apply Forall2_cons_inv_l in Hph as (p & ps & Hp & Hps & ->).
    simpl. unfold extracts in Hp. rewrite Hp. run.
    rewrite (IH _ _ Hps). by rewrite <- app_assoc.
Qed.

Lemma extract_messages_loop_concat messages (attached : list (list pyval)) :
  Forall2 message_photos messages attached →
  ∀ acc photos,
    Forall2 extracts (concat attached) photos →
    extract_messages_loop messages acc = inr (acc ++ photos).
Proof.
  induction 1 as [|message photos_data messages attached Hm _ IH];
    intros acc photos Hph; simpl in *.
  - apply Forall2_nil_inv_l in Hph as ->. by rewrite app_nil_r.
  - apply Forall2_app_inv_l in Hph as (ph1 & ph2 & H1 & H2 & ->).
    destruct Hm as [m Hm|m photos_data Hm]; run; rewrite Hm; simpl.
    + apply Forall2_nil_inv_l in H1 as ->. by apply IH.
    + rewrite (extend_photos_Forall2 _ _ _ H1).
      rewrite (IH _ _ H2). by rewrite <- app_assoc.
Qed.

(** X5: for messages that are objects, [extract_photos_from_messages]
    returns the records of the photos attached to the messages, message
    by message and in order, when those fragments extract; a message
    without a ["photos"] key adds nothing and raises nothing. *)
Theorem extract_photos_from_messages_attached
    (messages : list pyval) (attached : list (list pyval))
    (photos : list Photo) :
  Forall2 message_photos messages attached →
  Forall2 extracts (concat attached) photos →
  extract_photos_from_messages messages = inr photos.
Proof.
  intros Hm Hph. unfold extract_photos_from_messages.
  by rewrite (extract_messages_loop_concat _ _ Hm [] photos Hph).
Qed.

Lemma extract_photos_from_messages_attached_witness :
  extract_photos_from_messages
    [PyDict {[ "content" := PyStr "hi" ]};
     PyDict {[ "photos" := PyList [plain_photo "photos/a.jpg" 1;
                                   photo_taken "photos/b.jpg" 2 3] ]}]
  = inr [mkPhoto (PyStr "photos/a.jpg") (PyInt 1);
         mkPhoto (PyStr "photos/b.jpg") (PyInt 3)].
Proof.
  apply (extract_photos_from_messages_attached _
           [[]; [plain_photo "photos/a.jpg" 1;
                 photo_taken "photos/b.jpg" 2 3]]).
  - constructor; [by apply message_without_photos|].
    constructor; [by apply message_with_photos|constructor].
  - repeat constructor.
Defined.

(** ** Posts and albums *)

Lemma extract_posts_loop_cons post rest acc :
  extract_posts_loop (post :: rest) acc =
  match data_section post with
  | inl e => inl e
  | inr section =>
      match py_iter section with
      | inl e => inl e
      | inr entries =>
          match extract_entries entries acc with
          | inl e => inl e
          | inr photos => extract_posts_loop rest photos
          end
      end
  end.
Proof. reflexivity. Qed.

Lemma extract_posts_loop_app before after acc :
  extract_posts_loop (before ++ after) acc =
  match extract_posts_loop before acc with
  | inl e => inl e
  | inr photos => extract_posts_loop after photos
  end.
Proof.
  revert acc. induction before as [|post before IH]; intros acc; [done|].
  cbn [app]. rewrite !extract_posts_loop_cons.
  destruct (data_section post) as [|section]; [done|].
  destruct (py_iter section) as [|entries]; [done|].
  destruct (extract_entries entries acc) as [|photos]; [done|].
  apply IH.
Qed.

(** X6: a post whose ["attachments"] is the empty list makes
    [extract_photos_from_posts] raise [IndexError], when the posts before
    it extract; a post with no ["attachments"] key at all is passed over
    instead. *)
Theorem extract_photos_from_posts_empty_attachments
    (before : list pyval) (sections : list (list (gmap string pyval)))
    (photos : list Photo) (post : gmap string pyval) (after : list pyval) :
  Forall2 post_entries before sections →
  Forall2 extracts (media_of (concat sections)) photos →
  post !! "attachments" = Some (PyList []) →
  extract_photos_from_posts (before ++ PyDict post :: after) = inl IndexError
  ∧ extract_photos_from_posts
      (before ++ [PyDict (delete "attachments" post)]) = inr photos.
Proof.
  intros Hbefore Hph Hpost. unfold extract_photos_from_posts.
  rewrite !extract_posts_loop_app.
  rewrite (extract_posts_loop_media _ _ Hbefore [] photos Hph).
  cbv beta iota. rewrite app_nil_l. split.
  - rewrite extract_posts_loop_cons. unfold data_section. run.
    by rewrite Hpost.
  - rewrite extract_posts_loop_cons. unfold data_section. run.
    rewrite lookup_delete_eq. simpl. by rewrite lookup_empty.
Qed.

Lemma extract_photos_from_posts_empty_attachments_witness :
  extract_photos_from_posts
    ([post_media_and_text]
       ++ PyDict {[ "attachments" := PyList [] ]} :: [post_two_attachments])
  = inl IndexError
  ∧ extract_photos_from_posts
      ([post_media_and_text]
         ++ [PyDict (delete "attachments" {[ "attachments" := PyList [] ]})])
    = inr [mkPhoto (PyStr "photos/a.jpg") (PyInt 1)].
Proof.
  apply (extract_photos_from_posts_empty_attachments
           [post_media_and_text]
           [[ {[ "media" := plain_photo "photos/a.jpg" 1 ]};
              {[ "text" := PyStr "hello" ]} ]]).
  - repeat constructor. eapply (entries_of_first _ _ []); reflexivity.
  - repeat constructor.
  - reflexivity.
Defined.

Lemma album_loop_cons file rest acc :
  album_loop (file :: rest) acc =
  match py_getitem file.2 "photos" with
  | inl e => inl e
  | inr photos_data =>
      match py_iter photos_data with
      | inl e => inl e
      | inr items =>
          match extract_photos_from_list items with
          | inl e => inl e
          | inr extracted => album_loop rest (acc ++ extracted)
          end
      end
  end.
Proof. reflexivity. Qed.

Lemma album_loop_concat json_files (contents : list (list pyval)) :
  Forall2 album_photos json_files contents →
  ∀ acc photos,
    Forall2 extracts (concat contents) photos →
    album_loop json_files acc = inr (acc ++ photos).
Proof.
  induction 1 as [|file photos_data json_files contents Hfile _ IH];
    intros acc photos Hph; simpl in Hph.
  - apply Forall2_nil_inv_l in Hph as ->. simpl. by rewrite app_nil_r.
  - apply Forall2_app_inv_l in Hph as (ph1 & ph2 & H1 & H2 & ->).
    destruct Hfile as (d & Hd & Hphotos).
    rewrite album_loop_cons, Hd, (py_getitem_Some _ _ _ Hphotos). simpl.
    apply extract_photos_from_list_Forall2 in H1. rewrite H1.
    rewrite (IH _ _ H2). by rewrite <- app_assoc.
Qed.

(** X7: [get_photos_from_album] reads the entries whose name ends in
    [.json], in the order of the listing (it does not sort), and returns
    the records of their ["photos"] lists one after the other; entries
    with another name are not looked at. *)
Theorem get_photos_from_album_in_listing_order
    (directory : list (string * pyval)) (contents : list (list pyval))
    (photos : list Photo) :
  Forall2 album_photos (List.filter is_json directory) contents →
  Forall2 extracts (concat contents) photos →
  get_photos_from_album directory = inr photos.
Proof.
  intros Hfiles Hph.
  exact (album_loop_concat _ _ Hfiles [] photos Hph).
Qed.

(** The albums [1.json], listed first, and [0.json], with a stray file. *)
Lemma get_photos_from_album_in_listing_order_witness :
  get_photos_from_album
    [("1.json", album_of (photo_taken "photos/b.jpg" 1500 2000));
     ("notes.txt", PyNone);
     ("0.json", album_of (plain_photo "photos/a.jpg" 1000))]
  = inr [mkPhoto (PyStr "photos/b.jpg") (PyInt 2000);
         mkPhoto (PyStr "photos/a.jpg") (PyInt 1000)].
Proof.
  apply (get_photos_from_album_in_listing_order _
           [[photo_taken "photos/b.jpg" 1500 2000];
            [plain_photo "photos/a.jpg" 1000]]).
  - repeat constructor; eexists; split; reflexivity.
  - repeat constructor.
Defined.

Lemma album_loop_app before after acc :
  album_loop (before ++ after) acc =
  match album_loop before acc with
  | inl e => inl e
  | inr photos => album_loop after photos
  end.
Proof.
  revert acc. induction before as [|file before IH]; intros acc; [done|].
  cbn [app]. rewrite !album_loop_cons.
  destruct (py_getitem file.2 "photos") as [|photos_data]; [done|].
  destruct (py_iter photos_data) as [|items]; [done|].
  destruct (extract_photos_from_list items) as [|extracted]; [done|].
  apply IH.
Qed.

(** X8: an album file that has no ["photos"] key makes
    [get_photos_from_album] raise [KeyError] for ["photos"], when the
    album files listed before it extract; unlike a message, an album is
    not passed over. *)
Theorem get_photos_from_album_missing_photos
    (directory : list (string * pyval)) (before : list (string * pyval))
    (contents : list (list pyval)) (photos : list Photo)
    (name : string) (album : gmap string pyval)
    (after : list (string * pyval)) :
  List.filter is_json directory = before ++ (name, PyDict album) :: after →
  Forall2 album_photos before contents →
  Forall2 extracts (concat contents) photos →
  album !! "photos" = None →
  get_photos_from_album directory = inl (KeyError (PyStr "photos")).
Proof.
  intros Hdir Hbefore Hph Halbum.
  change (album_loop (List.filter is_json directory) []
          = inl (KeyError (PyStr "photos"))).
  rewrite Hdir, album_loop_app.
  rewrite (album_loop_concat _ _ Hbefore [] photos Hph).
  rewrite album_loop_cons. simpl. by rewrite Halbum.
Qed.

Lemma get_photos_from_album_missing_photos_witness :
  get_photos_from_album
    [("0.json", album_of (plain_photo "photos/a.jpg" 1000));
     ("1.json", PyDict {[ "name" := PyStr "empty album" ]})]
  = inl (KeyError (PyStr "photos")).
Proof.
  apply (get_photos_from_album_missing_photos _
           [("0.json", album_of (plain_photo "photos/a.jpg" 1000))]
           [[plain_photo "photos/a.jpg" 1000]]
           [mkPhoto (PyStr "photos/a.jpg") (PyInt 1000)]
           "1.json" {[ "name" := PyStr "empty album" ]} []).
  - reflexivity.
  - repeat constructor; eexists; split; reflexivity.
  - repeat constructor.
  - reflexivity.
Defined.

(** ** The conversation directory *)

Lemma name_le_trans : Transitive name_le.
Proof.
  intros a b c Hab Hbc. unfold name_le in *.
  apply Is_true_true. apply Is_true_true in Hab, Hbc.
  exact (transitivity (R := String.le) Hab Hbc).
Qed.

Lemma name_le_total : Total name_le.
Proof.
  intros a b. unfold name_le. apply String.leb_total.
Qed.

Lemma same_name_same_entry (l : list (string * pyval)) x y :
  NoDup l.*1 → x ∈ l → y ∈ l → x.1 = y.1 → x = y.
Proof.
  induction l as [|z l IH]; intros Hnd Hx Hy Hxy; [by inv Hx|].
  rewrite fmap_cons in Hnd. apply NoDup_cons in Hnd as [Hz Hnd].
  apply elem_of_cons in Hx as [->|Hx], Hy as [->|Hy]; [done| | |by apply IH].
  - exfalso. apply Hz. rewrite Hxy. by apply list_elem_of_fmap_2.
  - exfalso. apply Hz. rewrite <- Hxy. by apply list_elem_of_fmap_2.
Qed.

(** X9: [merge_conversation] depends on the JSON files of the directory
    and not on the order in which [os.listdir] lists them, nor on entries
    whose name does not end in [.json]: two listings with the same JSON
    files (names being unique in a directory) merge to the same
    result. *)
Theorem merge_conversation_listing_order
    (listing1 listing2 : list (string * pyval)) :
  NoDup listing1.*1 →
  List.filter is_json listing1 ≡ₚ List.filter is_json listing2 →
  merge_conversation listing1 = merge_conversation listing2.
Proof.
  intros Hnd Hperm.
  pose proof name_le_trans. pose proof name_le_total.
  change (merge_documents
            (merge_sort name_le (List.filter is_json listing1)).*2
          = merge_documents
              (merge_sort name_le (List.filter is_json listing2)).*2).
  do 2 f_equal.
  apply (Sorted_unique_strong name_le).
  - intros x y Hx Hy Hxy Hyx.
    rewrite merge_sort_Permutation in Hx, Hy. rewrite <- Hperm in Hy.
    apply list_elem_of_In, filter_In in Hx as [Hx _], Hy as [Hy _].
    apply list_elem_of_In in Hx, Hy.
    apply (same_name_same_entry listing1); [done..|].
    by apply String.leb_antisym.
  - apply Sorted_merge_sort. done.
  - apply Sorted_merge_sort. done.
  - by rewrite !merge_sort_Permutation.
Qed.

Lemma merge_conversation_listing_order_witness :
  merge_conversation
    [("message_2.json", PyDict fragment_bc); ("photos", PyNone);
     ("message_1.json", PyDict fragment_a)]
  = merge_conversation
      [("message_1.json", PyDict fragment_a);
       ("message_2.json", PyDict fragment_bc)].
Proof.
  apply merge_conversation_listing_order.
  - refine (bool_decide_unpack (NoDup _) _). vm_compute. exact I.
  - vm_compute. apply Permutation_swap.
Defined.

(** X10: the file names are ordered as strings, so [message_10.json]
    comes before [message_2.json]: with ten or more parts the tenth is
    merged right after the first, whatever the documents are. *)
Theorem merge_conversation_orders_names_as_strings (d1 d2 d10 : pyval) :
  merge_conversation
    [("message_1.json", d1); ("message_2.json", d2); ("message_10.json", d10)]
  = merge_documents [d1; d10; d2].
Proof. reflexivity. Qed.

(** X11: a first fragment without a ["messages"] field is returned as it
    is when it is the only one, and makes the merge raise [KeyError] for
    ["messages"] as soon as a second fragment follows. *)
Theorem merge_documents_first_without_messages
    (first : gmap string pyval) (second : pyval) (rest : list pyval) :
  first !! "messages" = None →
  merge_documents [PyDict first] = inr (PyDict first)
  ∧ merge_documents (PyDict first :: second :: rest)
    = inl (KeyError (PyStr "messages")).
Proof.
  intros Hfirst. split; [reflexivity|].
  unfold merge_documents. rewrite merge_rest_cons.
  unfold extend_messages. by rewrite Hfirst.
Qed.

Lemma merge_documents_first_without_messages_witness :
  merge_documents [PyDict fragment_without_messages]
  = inr (PyDict fragment_without_messages)
  ∧ merge_documents
      (PyDict fragment_without_messages :: PyDict fragment_bc :: [])
    = inl (KeyError (PyStr "messages")).
Proof.
  apply (merge_documents_first_without_messages
           fragment_without_messages (PyDict fragment_bc) []).
  reflexivity.
Defined.

(** ** Rewriting a file *)

(** X16: the last value set for DateTimeOriginal is the one that stays:
    setting a second value gives what setting it alone gives, and setting
    the same value again changes nothing. *)
Theorem set_date_time_original_last_wins
    (exif_dict exif_dict1 : gmap string exif_ifd) (value1 value2 : string) :
  set_date_time_original exif_dict value1 = inr exif_dict1 →
  set_date_time_original exif_dict1 value2
  = set_date_time_original exif_dict value2
  ∧ set_date_time_original exif_dict1 value1 = inr exif_dict1.
Proof.
  unfold set_date_time_original.
  destruct (exif_dict !! "Exif") as [[tags|]|] eqn:Hexif; try discriminate.
  intros [= <-]. rewrite lookup_insert_eq.
  unfold mret, pyerr_ret. by rewrite !insert_insert_eq.
Qed.

Lemma set_date_time_original_last_wins_witness :
  set_date_time_original
    (<["Exif" := Ifd (<[DateTimeOriginal := ExifStr "old"]> ∅)]>
       {[ "Exif" := Ifd ∅ ]}) "new"
  = set_date_time_original {[ "Exif" := Ifd ∅ ]} "new"
  ∧ set_date_time_original
      (<["Exif" := Ifd (<[DateTimeOriginal := ExifStr "old"]> ∅)]>
         {[ "Exif" := Ifd ∅ ]}) "old"
    = inr (<["Exif" := Ifd (<[DateTimeOriginal := ExifStr "old"]> ∅)]>
             {[ "Exif" := Ifd ∅ ]}).
Proof.
  apply (set_date_time_original_last_wins {[ "Exif" := Ifd ∅ ]}).
  reflexivity.
Defined.

Lemma endswith_under_root uri :
  endswith (URI_ROOT ++ uri)%string ".jpg" = endswith uri ".jpg".
Proof.
  destruct uri as [|a [|b [|c [|d uri]]]]; try reflexivity.
  apply endswith_app. simpl. lia.
Qed.

(** X23: a photo whose [uri] does not end in [.jpg] is passed over by
    [main]'s loop when its timestamp is one of the years 1 to 9999: the
    root put before the [uri] never makes a path eligible. *)
Theorem write_photo_skips_other_extensions
    (lib : Piexif) (uri : string) (t : Z) (w : world) :
  endswith uri ".jpg" = false →
  MIN_TIMESTAMP ≤ t ≤ MAX_TIMESTAMP →
  write_photo lib uri t w = (inr (), w).
Proof.
  intros Huri Ht. unfold write_photo.
  rewrite (proj1 (utc_fromtimestamp_range t) Ht).
  apply modify_date_taken_guard. by rewrite endswith_under_root.
Qed.

Lemma write_photo_skips_other_extensions_witness :
  write_photo toy_piexif "photos/a.png" 1700000000 (one_file "photos/a.png")
  = (inr (), one_file "photos/a.png").
Proof.
  apply (write_photo_skips_other_extensions toy_piexif "photos/a.png").
  - reflexivity.
  - unfold MIN_TIMESTAMP, MAX_TIMESTAMP. lia.
Defined.

(** X22: a timestamp outside the years 1 to 9999 stops [main]'s loop at
    the conversion: the conversion's exception is raised, the writer is
    not called and nothing is read or written, also for a photo the
    writer would have passed over. *)
Theorem write_photo_refuses_other_years
    (lib : Piexif) (uri : string) (t : Z) (w : world) :
  ¬ (MIN_TIMESTAMP ≤ t ≤ MAX_TIMESTAMP) →
  ∃ e, utc_fromtimestamp t = inl e ∧ write_photo lib uri t w = (inl e, w).
Proof. apply write_photo_out_of_range. Qed.

Lemma write_photo_refuses_other_years_witness :
  ∃ e, utc_fromtimestamp 253402300800 = inl e
       ∧ write_photo piexif_without_exif "photos/a.png" 253402300800
           (one_file "photos/a.png")
         = (inl e, one_file "photos/a.png").
Proof.
  apply (write_photo_refuses_other_years piexif_without_exif "photos/a.png").
  unfold MIN_TIMESTAMP, MAX_TIMESTAMP. lia.
Defined.

(** ** The conversion *)

(** The years whose number less 1900 fits an [int] are the ordinals
    -784351602709 to 784352989899. *)
Lemma ord2ymd_year_fits_int n :
  -784351602709 ≤ n ≤ 784352989899
  ↔ -2147481748 ≤ (ord2ymd n).1.1 ≤ 2147485547.
Proof.
  unfold ord2ymd. cbv zeta.
  set (a := (n - 1) mod 146097).
  set (b := a mod 36524).
  set (c := b mod 1461).
  destruct ((c / 365 =? 4) || (a / 36524 =? 4)) eqn:Hlast.
  - apply orb_true_iff in Hlast. rewrite !Z.eqb_eq in Hlast. simpl.
    subst c b a. Z.div_mod_to_equations. lia.
  - apply orb_false_iff in Hlast. rewrite !Z.eqb_neq in Hlast.
    destruct (month_day _ _) as [m d]. simpl.
    subst c b a. Z.div_mod_to_equations. lia.
Qed.

Lemma gmtime_year_fits_int t :
  GMTIME_MIN ≤ t ≤ GMTIME_MAX
  ↔ INT_MIN ≤ year (gmtime t) - TM_YEAR_BASE ≤ INT_MAX.
Proof.
  unfold gmtime, INT_MIN, INT_MAX, TM_YEAR_BASE.
  pose proof (ord2ymd_year_fits_int (t / 86400 + EPOCH_ORDINAL)) as H.
  destruct (ord2ymd _) as [[y m] d]. simpl in *.
  transitivity (-2147481748 ≤ y ≤ 2147485547); [|lia].
  rewrite <- H. unfold GMTIME_MIN, GMTIME_MAX, EPOCH_ORDINAL.
  Z.div_mod_to_equations. lia.
Qed.

(** X18: [utc_fromtimestamp] accepts exactly the timestamps from
    -62135596800 to 253402300799, the seconds of the years 1 to 9999.
    Every other one raises: [ValueError] while [gmtime] can still store
    the year (-67768040609740800 to 67768036191676799), [OSError] beyond
    that while the timestamp fits the 64 bits of [time_t], and
    [OverflowError] when it does not. *)
Theorem utc_fromtimestamp_accepts_years_1_to_9999 (t : Z) :
  (MIN_TIMESTAMP ≤ t ≤ MAX_TIMESTAMP → utc_fromtimestamp t = inr (gmtime t))
  ∧ (GMTIME_MIN ≤ t < MIN_TIMESTAMP ∨ MAX_TIMESTAMP < t ≤ GMTIME_MAX →
     utc_fromtimestamp t = inl ValueError)
  ∧ (TIME_T_MIN ≤ t < GMTIME_MIN ∨ GMTIME_MAX < t ≤ TIME_T_MAX →
     utc_fromtimestamp t = inl (Raised "OSError"))
  ∧ (t < TIME_T_MIN ∨ TIME_T_MAX < t →
     utc_fromtimestamp t = inl (Raised "OverflowError")).
Proof.
  split; [apply utc_fromtimestamp_range|].
  pose proof (gmtime_year t) as Hyear.
  pose proof (gmtime_year_fits_int t) as Hint.
  unfold utc_fromtimestamp.
  destruct ((TIME_T_MIN <=? t) && (t <=? TIME_T_MAX)) eqn:Htime; simpl.
  - apply andb_true_iff in Htime. rewrite !Z.leb_le in Htime.
    destruct ((INT_MIN <=? year (gmtime t) - TM_YEAR_BASE)
              && (year (gmtime t) - TM_YEAR_BASE <=? INT_MAX)) eqn:Hfit;
      simpl.
    + apply andb_true_iff in Hfit. rewrite !Z.leb_le in Hfit.
      apply Hint in Hfit.
      destruct ((MINYEAR <=? year (gmtime t))
                && (year (gmtime t) <=? MAXYEAR)) eqn:Hy.
      * apply andb_true_iff in Hy. rewrite !Z.leb_le in Hy.
        apply Hyear in Hy.
        unfold MIN_TIMESTAMP, MAX_TIMESTAMP, GMTIME_MIN, GMTIME_MAX,
          TIME_T_MIN, TIME_T_MAX in *.
        repeat split; intros; exfalso; lia.
      * unfold GMTIME_MIN, GMTIME_MAX, TIME_T_MIN, TIME_T_MAX in *.
        repeat split; intros; try reflexivity; exfalso; lia.
    + assert (¬ (GMTIME_MIN ≤ t ≤ GMTIME_MAX)) as Hout.
      { intros H. apply Hint in H. apply andb_false_iff in Hfit.
        rewrite !Z.leb_gt in Hfit. lia. }
      unfold MIN_TIMESTAMP, MAX_TIMESTAMP, GMTIME_MIN, GMTIME_MAX,
        TIME_T_MIN, TIME_T_MAX in *.
      repeat split; intros; try reflexivity; exfalso; lia.
  - apply andb_false_iff in Htime. rewrite !Z.leb_gt in Htime.
    unfold MIN_TIMESTAMP, MAX_TIMESTAMP, GMTIME_MIN, GMTIME_MAX,
      TIME_T_MIN, TIME_T_MAX in *.
    repeat split; intros; try reflexivity; exfalso; lia.
Qed.

Lemma utc_fromtimestamp_accepts_years_1_to_9999_witness :
  utc_fromtimestamp 1700000000 = inr (gmtime 1700000000)
  ∧ utc_fromtimestamp 253402300800 = inl ValueError
  ∧ utc_fromtimestamp (10 ^ 17) = inl (Raised "OSError")
  ∧ utc_fromtimestamp (2 ^ 63) = inl (Raised "OverflowError").
Proof.
  pose proof utc_fromtimestamp_accepts_years_1_to_9999 as H.
  unfold MIN_TIMESTAMP, MAX_TIMESTAMP, GMTIME_MIN, GMTIME_MAX,
    TIME_T_MIN, TIME_T_MAX in H.
  split; [|split; [|split]].
  - apply (proj1 (H 1700000000)). lia.
  - apply (proj1 (proj2 (H 253402300800))). lia.
  - apply (proj1 (proj2 (proj2 (H (10 ^ 17))))). lia.
  - apply (proj2 (proj2 (proj2 (H (2 ^ 63))))). lia.
Defined.

(** X19: the date [gmtime] computes denotes the timestamp it came from:
    counting its days and seconds back from the epoch, as Python's
    [_ymd2ord] and [datetime.timestamp()] do, gives the timestamp again,
    for every integer. *)
Theorem timestamp_of_gmtime (t : Z) : timestamp_of (gmtime t) = t.
Proof. apply gmtime_inverse. Qed.

(** X20: for a timestamp of the years 1 to 9999 the date is one of the
    calendar: the month is 1 to 12, the day is 1 to the length of that
    month in that year (29 for February only in a leap year), the hour is
    below 24, minute and second below 60. *)
Theorem gmtime_valid_date (t : Z) :
  MIN_TIMESTAMP ≤ t ≤ MAX_TIMESTAMP → valid_date (gmtime t).
Proof.
  intros Ht. unfold valid_date.
  split; [by apply gmtime_year|].
  pose proof (gmtime_time_of_day t) as Htime.
  unfold gmtime in *.
  destruct (ord2ymd (t / 86400 + EPOCH_ORDINAL)) as [[y m] d] eqn:Hymd.
  apply ymd2ord_ord2ymd in Hymd as (_ & Hm & Hd). simpl in *. tauto.
Qed.

Lemma gmtime_valid_date_witness : valid_date (gmtime 951782400).
Proof.
  apply (gmtime_valid_date 951782400).
  unfold MIN_TIMESTAMP, MAX_TIMESTAMP. lia.
Defined.


(** ** The run *)

(** X13: the last loop of [main] stops at the first photo that raises:
    the exception is that photo's, the photos after it are not
    processed, and what the loop did for the photos before it stays
    done. *)
Theorem write_all_stops_at_first_error
    (lib : Piexif) (float_fromtimestamp : Z → Z → pyerr + DateTime)
    (before : list Photo) (photo : Photo) (after : list Photo)
    (w w1 w2 : world) (e : pyerr) :
  write_all lib float_fromtimestamp before w = (inr (), w1) →
  write_record lib float_fromtimestamp photo w1 = (inl e, w2) →
  write_all lib float_fromtimestamp (before ++ photo :: after) w
  = (inl e, w2).
Proof.
  intros Hbefore Hphoto.
  revert w Hbefore. induction before as [|p before IH]; intros w Hbefore.
  - injection Hbefore as <-. simpl. by rewrite Hphoto.
  - simpl in *.
    destruct (write_record lib float_fromtimestamp p w) as [[err|[]] w'];
      [discriminate|].
    by apply IH.
Qed.

(** A photo that is passed over, one without a timestamp, and one
    more. *)
Lemma write_all_stops_at_first_error_witness :
  write_all piexif_without_exif no_floats
    ([mkPhoto (PyStr "photos/a.png") (PyInt 1700000000)]
       ++ mkPhoto (PyStr "photos/b.jpg") PyNone
       :: [mkPhoto (PyStr "photos/c.jpg") (PyInt 1700000000)])
    (one_file "facebook_data/photos/c.jpg")
  = (inl TypeError, one_file "facebook_data/photos/c.jpg").
Proof.
  apply (write_all_stops_at_first_error piexif_without_exif no_floats
           [mkPhoto (PyStr "photos/a.png") (PyInt 1700000000)]
           (mkPhoto (PyStr "photos/b.jpg") PyNone)
           [mkPhoto (PyStr "photos/c.jpg") (PyInt 1700000000)]
           _ (one_file "facebook_data/photos/c.jpg")).
  - vm_compute. reflexivity.
  - reflexivity.
Defined.

Lemma collect_message_photos_cons message_dir rest acc :
  collect_message_photos (message_dir :: rest) acc =
  match merge_conversation message_dir.2 with
  | inl e => inl e
  | inr conversation =>
      match py_getitem conversation "messages" with
      | inl e => inl e
      | inr messages =>
          match py_iter messages with
          | inl e => inl e
          | inr messages =>
              match extract_photos_from_messages messages with
              | inl e => inl e
              | inr message_photos =>
                  collect_message_photos rest (acc ++ message_photos)
              end
          end
      end
  end.
Proof. reflexivity. Qed.

Lemma collect_message_photos_app before after acc :
  collect_message_photos (before ++ after) acc =
  match collect_message_photos before acc with
  | inl e => inl e
  | inr photos => collect_message_photos after photos
  end.
Proof.
  revert acc. induction before as [|dir before IH]; intros acc; [done|].
  cbn [app]. rewrite !collect_message_photos_cons.
  destruct (merge_conversation dir.2) as [|conversation]; [done|].
  destruct (py_getitem conversation "messages") as [|messages]; [done|].
  destruct (py_iter messages) as [|items]; [done|].
  destruct (extract_photos_from_messages items) as [|photos]; [done|].
  apply IH.
Qed.

Lemma merge_conversation_no_json listing :
  List.filter is_json listing = [] →
  merge_conversation listing = inr empty_dict.
Proof.
  intros Hnone.
  change (merge_documents
            (merge_sort name_le (List.filter is_json listing)).*2
          = inr empty_dict).
  by rewrite Hnone.
Qed.

(** X12: a conversation directory without any [.json] file ends the run:
    its merge is [{}], reading ["messages"] from it raises [KeyError], and
    [main] stops there with no image read or written, when the
    conversations scanned before it extract. *)
Theorem main_stops_at_conversation_without_json
    (lib : Piexif) (float_fromtimestamp : Z → Z → pyerr + DateTime)
    (e : export) (w : world)
    (before : list (string * list (string * pyval))) (photos : list Photo)
    (path : string) (listing : list (string * pyval))
    (after : list (string * list (string * pyval))) :
  get_all_message_dirs (inbox e) (archived_threads e)
  = before ++ (path, listing) :: after →
  collect_message_photos before [] = inr photos →
  List.filter is_json listing = [] →
  main lib float_fromtimestamp e w = (inl (KeyError (PyStr "messages")), w).
Proof.
  intros Hdirs Hbefore Hnone. unfold main, collect_photos.
  rewrite Hdirs, collect_message_photos_app, Hbefore.
  rewrite collect_message_photos_cons. simpl.
  by rewrite (merge_conversation_no_json _ Hnone).
Qed.

Lemma main_stops_at_conversation_without_json_witness :
  main toy_piexif no_floats
    (mkExport
       [DirEntry "ann_1" [("message_1.json", PyDict fragment_a)];
        FileEntry "index.html";
        DirEntry "bob_2" [("photos", PyNone)]]
       [] [("0.json", album_of (plain_photo "photos/a.jpg" 1000))]
       (PyDict {[ "other_photos_v2" := PyList [] ]}) (PyList []))
    (one_file "facebook_data/photos/a.jpg")
  = (inl (KeyError (PyStr "messages")),
     one_file "facebook_data/photos/a.jpg").
Proof.
  apply (main_stops_at_conversation_without_json toy_piexif no_floats _ _
           [((INBOX_DIR ++ "/" ++ "ann_1")%string,
             [("message_1.json", PyDict fragment_a)])]
           []
           (INBOX_DIR ++ "/" ++ "bob_2")%string [("photos", PyNone)] []).
  - reflexivity.
  - vm_compute. reflexivity.
  - reflexivity.
Defined.
